(** * cmm_server: the booking and wallet settlement core

    A shallow embedding of the Go packages [repository] and [usecase]
    (booking, wallet and voucher parts) over an in-memory relational
    store, followed by the properties of the settlement flow.

    Conventions of the embedding:
    - [time.Time] is an instant counted in nanoseconds ([Z]);
      [time.Duration] is an [int64] count of nanoseconds;
    - [float64] is Rocq's primitive binary64 [float];
    - [uuid.UUID] is its 128-bit value as an integer, [uuid.Nil] being [0];
    - a table is the list of its rows, in insertion order;
    - a Go [error] result is [option error] ([None] is [nil]), a Go
      [(T, error)] result is [result T];
    - every call of [time.Now()] and [uuid.New()] reads a field of the
      environment [Env]; so does the store's verdict on a write
      statement (a statement may be rejected, e.g. by one of the foreign
      keys of [pkg/infra/migrate.go]).  Queries are answered from the
      tables and raise nothing but [gorm.ErrRecordNotFound]. *)

From Stdlib Require Import ZArith Floats Uint63 Lia.
From stdpp Require Import base option list strings sorting.

Open Scope Z_scope.

(** The conversion [float64(n)] of an integer [n] with [|n| < 2^63]. *)
Definition float64 (n : Z) : float :=
  if n <? 0 then PrimFloat.opp (PrimFloat.of_uint63 (Uint63.of_Z (- n)))
  else PrimFloat.of_uint63 (Uint63.of_Z n).

(** ** Package [time] *)

Module time.

Definition Time := Z.
Definition Duration := Z.

Definition Nanosecond : Duration := 1.
Definition Microsecond : Duration := 1000 * Nanosecond.
Definition Millisecond : Duration := 1000 * Microsecond.
Definition Second : Duration := 1000 * Millisecond.
Definition Minute : Duration := 60 * Second.
Definition Hour : Duration := 60 * Minute.

Definition minDuration : Duration := - 2 ^ 63.
Definition maxDuration : Duration := 2 ^ 63 - 1.

Definition Before (t u : Time) : bool := t <? u.
Definition After (t u : Time) : bool := u <? t.
Definition Equal (t u : Time) : bool := t =? u.

(** [t.Sub(u)]: the difference, saturated to the range of [int64]. *)
Definition Sub (t u : Time) : Duration :=
  if t - u <? minDuration then minDuration
  else if maxDuration <? t - u then maxDuration
  else t - u.

(** [time.Until(t)] is [t.Sub(time.Now())]. *)
Definition Until (now t : Time) : Duration := Sub t now.

(** [d.Hours()]: whole hours plus the remainder as a fraction. *)
Definition Hours (d : Duration) : float :=
  let hour := Z.quot d Hour in
  let nsec := Z.rem d Hour in
  (float64 hour + float64 nsec / (60 * 60 * 1e9))%float.

End time.

(** ** Errors and results *)

Inductive error : Type :=
  | ErrRecordNotFound            (* gorm.ErrRecordNotFound *)
  | ErrDuplicatedKey             (* insert of an existing primary key *)
  | ErrRejected                  (* the store rejected a write statement *)
  | New (msg : string).          (* errors.New(msg) *)

Definition errors_Is (err target : error) : bool :=
  match err, target with
  | ErrRecordNotFound, ErrRecordNotFound => true
  | ErrDuplicatedKey, ErrDuplicatedKey => true
  | ErrRejected, ErrRejected => true
  | New a, New b => String.eqb a b
  | _, _ => false
  end.

Inductive result (A : Type) : Type :=
  | Ok (a : A)
  | Err (e : error).
Arguments Ok {A} a.
Arguments Err {A} e.

(** The error values of the use cases, under the names the
    specification gives them. *)
Definition InvalidTimeRange : error := New "end time must be after start time".
Definition PastBooking : error := New "cannot book in the past".
Definition RoomNotFound : error := New "meeting room not found".
Definition RoomUnavailable : error := New "meeting room is not available".
Definition SlotConflict : error := New "meeting room is already booked for this time slot".
Definition InvalidVoucher : error := New "invalid voucher code".
Definition VoucherExpired : error := New "voucher is not valid at this time".
Definition VoucherExhausted : error := New "voucher has reached maximum uses".
Definition WalletNotFound : error := New "wallet not found".
Definition InsufficientBalance : error := New "insufficient balance".
Definition PaymentFailed : error := New "payment failed".
Definition BookingNotFound : error := New "booking not found".
Definition AlreadyCancelled : error := New "booking is already cancelled".
Definition TopupNotFound : error := New "topup not found".
Definition NotPending : error := New "topup is not pending".
Definition CreditFailed : error := New "failed to update wallet balance".

(** ** Package [entity] *)

Definition UUID := Z.
Definition uuid_Nil : UUID := 0.

Module entity.

(** Modelled from the spec: the package [entity] is not among the
    sources.  Each record carries the attributes section 3 of the
    specification lists for it, under the field names the use cases
    read and write; bookings and transactions are keyed by [ID]. *)

(** Modelled from the spec: Wallet, {userID, balance}. *)
Record Wallet := mkWallet {
  w_UserID : UUID;
  w_Balance : float }.

(** Modelled from the spec: the room's {pricePerHour, available}, with
    the name the booking response resolves. *)
Record MeetingRoom := mkMeetingRoom {
  r_ID : UUID;
  r_Name : string;
  r_PricePerHour : float;
  r_Available : bool }.

(** Modelled from the spec: Booking, {id, customerID, roomID, startTime,
    endTime, totalPrice, voucherID, status, createdAt}. *)
Record Booking := mkBooking {
  b_ID : UUID;
  b_CustomerID : UUID;
  b_MeetingRoomID : UUID;
  b_StartTime : time.Time;
  b_EndTime : time.Time;
  b_TotalPrice : float;
  b_VoucherID : UUID;
  b_Status : string;
  b_CreatedAt : time.Time }.

(** Modelled from the spec: Voucher, {id, code, discountPercent,
    maxUses, usedCount, validFrom, validTo}. *)
Record Voucher := mkVoucher {
  v_ID : UUID;
  v_Code : string;
  v_DiscountPercent : Z;
  v_MaxUses : Z;
  v_UsedCount : Z;
  v_ValidFrom : time.Time;
  v_ValidTo : time.Time }.

(** Modelled from the spec: Transaction, {id, userID, serviceID,
    serviceRefID, amount, paidAt, status}. *)
Record Transaction := mkTransaction {
  t_ID : UUID;
  t_UserID : UUID;
  t_ServiceID : Z;
  t_ServiceRefID : UUID;
  t_Amount : float;
  t_PaidAt : time.Time;
  t_Status : string }.

(** Modelled from the spec: Topup, {id, userID, amount, method, status,
    createdAt}. *)
Record Topup := mkTopup {
  p_ID : UUID;
  p_UserID : UUID;
  p_Amount : float;
  p_Method : string;
  p_Status : string;
  p_CreatedAt : time.Time }.

End entity.
Export entity.

(** ** Packages [request] and [response] *)

Module request.

Record CreateBooking := mkCreateBooking {
  MeetingRoomID : UUID;
  StartTime : time.Time;
  EndTime : time.Time;
  VoucherCode : string }.

Record ConfirmTopup := mkConfirmTopup {
  TopupID : UUID }.

Record ApplyVoucher := mkApplyVoucher {
  av_VoucherCode : string;
  av_Amount : float }.

(* Wallet requests *)
Record TopupWallet := mkTopupWallet {
  tw_Amount : float;
  tw_Method : string }.

(* Voucher requests *)
Record CreateVoucher := mkCreateVoucher {
  cv_Code : string;
  cv_DiscountPercent : Z;
  cv_MaxUses : Z;
  cv_ServiceID : Z;
  cv_ValidFrom : time.Time;
  cv_ValidTo : time.Time }.

Record UpdateVoucher := mkUpdateVoucher {
  uv_ID : UUID;
  uv_Code : string;
  uv_DiscountPercent : Z;
  uv_MaxUses : Z;
  uv_ValidFrom : option time.Time;   (* *time.Time, nil when left out *)
  uv_ValidTo : option time.Time }.

End request.

Module response.

Record BookingResponse := mkBookingResponse {
  br_ID : UUID;
  br_CustomerID : UUID;
  br_MeetingRoomID : UUID;
  br_RoomName : string;
  br_StartTime : time.Time;
  br_EndTime : time.Time;
  br_TotalPrice : float;
  br_VoucherID : UUID;
  br_Status : string;
  br_CreatedAt : time.Time }.

Record VoucherCalculation := mkVoucherCalculation {
  OriginalAmount : float;
  DiscountAmount : float;
  FinalAmount : float;
  DiscountPercent : Z;
  vc_VoucherCode : string }.

Record WalletResponse := mkWalletResponse {
  wr_UserID : UUID;
  wr_Balance : float }.

Record TopupResponse := mkTopupResponse {
  tr_ID : UUID;
  tr_UserID : UUID;
  tr_Amount : float;
  tr_Method : string;
  tr_Status : string;
  tr_CreatedAt : time.Time }.

Record VoucherResponse := mkVoucherResponse {
  vr_ID : UUID;
  vr_Code : string;
  vr_DiscountPercent : Z;
  vr_MaxUses : Z;
  vr_UsedCount : Z;
  vr_ServiceID : Z;
  vr_ValidFrom : time.Time;
  vr_ValidTo : time.Time }.

End response.

(** ** The store, the log and the environment *)

Record World := mkWorld {
  meeting_rooms : list MeetingRoom;
  bookings : list Booking;
  vouchers : list Voucher;
  wallets : list Wallet;
  topups : list Topup;
  transactions : list Transaction;
  logs : list string }.

Definition set_bookings (f : list Booking → list Booking) (w : World) : World :=
  mkWorld (meeting_rooms w) (f (bookings w)) (vouchers w) (wallets w)
          (topups w) (transactions w) (logs w).
Definition set_vouchers (f : list Voucher → list Voucher) (w : World) : World :=
  mkWorld (meeting_rooms w) (bookings w) (f (vouchers w)) (wallets w)
          (topups w) (transactions w) (logs w).
Definition set_wallets (f : list Wallet → list Wallet) (w : World) : World :=
  mkWorld (meeting_rooms w) (bookings w) (vouchers w) (f (wallets w))
          (topups w) (transactions w) (logs w).
Definition set_topups (f : list Topup → list Topup) (w : World) : World :=
  mkWorld (meeting_rooms w) (bookings w) (vouchers w) (wallets w)
          (f (topups w)) (transactions w) (logs w).
Definition set_transactions (f : list Transaction → list Transaction) (w : World) : World :=
  mkWorld (meeting_rooms w) (bookings w) (vouchers w) (wallets w)
          (topups w) (f (transactions w)) (logs w).
Definition set_logs (f : list string → list string) (w : World) : World :=
  mkWorld (meeting_rooms w) (bookings w) (vouchers w) (wallets w)
          (topups w) (transactions w) (f (logs w)).

(** The write statements the repositories issue. *)
Inductive Statement : Type :=
  | InsertBooking
  | InsertTransaction
  | UpdateBookingCancelled
  | UpdateVoucherUsedCount
  | UpdateWalletCredit
  | UpdateWalletDebit
  | UpdateTopupStatusSt.

Record Env := mkEnv {
  now_check : time.Time;      (* time.Now() of the start-time and 24h checks *)
  now_voucher : time.Time;    (* time.Now() of the voucher validity check *)
  now_created : time.Time;    (* time.Now() stored as CreatedAt *)
  now_paid : time.Time;       (* time.Now() stored as PaidAt *)
  new_booking_id : UUID;      (* uuid.New() of the booking *)
  new_transaction_id : UUID;  (* uuid.New() of the transaction *)
  rejects : Statement → bool  (* does the store reject this statement? *) }.

Definition set_meeting_rooms (f : list MeetingRoom → list MeetingRoom) (w : World) : World :=
  mkWorld (f (meeting_rooms w)) (bookings w) (vouchers w) (wallets w)
          (topups w) (transactions w) (logs w).

(** The write statements of the repository methods outside the
    settlement flow. *)
Inductive Write : Type :=
  | UpdateRoomAvailable
  | InsertTopup
  | InsertVoucher
  | SaveVoucher
  | DeleteVoucherRows.

(** What a call of the use cases outside the settlement flow draws from
    its environment. *)
Record Call := mkCall {
  call_id : UUID;         (* uuid.New() *)
  call_now : time.Time;   (* time.Now() *)
  refuses : Write → bool  (* does the store reject this statement? *) }.

(** Computations over the world. *)
Definition M (A : Type) : Type := World → A * World.

Global Instance M_ret : MRet M := λ A a w, (a, w).
Global Instance M_bind : MBind M := λ A B k m w, let '(a, w') := m w in k a w'.

Definition gets {A} (f : World → A) : M A := λ w, (f w, w).
Definition modify (f : World → World) : M unit := λ w, (tt, f w).

(** ** Package [logger] *)

Module logger.
Definition Info (msg : string) : M unit := modify (set_logs (λ l, l ++ [msg])).
Definition Errorw (msg : string) (err : error) : M unit :=
  modify (set_logs (λ l, l ++ [msg])).
End logger.

(** ** Package [repository] *)

Module repository.

(** [Where(cond).First(&row)]: the first row that matches. *)
Definition First {A} (cond : A → bool) (table : list A) : result A :=
  match find cond table with
  | Some row => Ok row
  | None => Err ErrRecordNotFound
  end.

(** [Where(cond).Update(col, expr)]: every matching row is rewritten;
    matching no row is not an error. *)
Definition Update {A} (cond : A → bool) (set : A → A) (table : list A) : list A :=
  (λ row, if cond row then set row else row) <$> table.

(** [Where(cond).Count(&count)]. *)
Definition Count {A} (cond : A → bool) (table : list A) : Z :=
  Z.of_nat (length (List.filter cond table)).

Section WithStore.
Variable env : Env.

(** A write statement: the store either rejects it, leaving the tables
    as they are, or applies it. *)
Definition Exec (st : Statement) (apply : World → World) : M (option error) :=
  λ w, if rejects env st then (Some ErrRejected, w) else (None, apply w).

(** [db.Create(row)]: an insert, refused when a row of the table has
    the identifier already. *)
Definition Create (st : Statement) (exists_ : World → bool) (apply : World → World)
  : M (option error) :=
  λ w, if rejects env st then (Some ErrRejected, w)
       else if exists_ w then (Some ErrDuplicatedKey, w)
       else (None, apply w).

(* meeting rooms *)

Definition GetMeetingRoomByID (id : UUID) : M (result MeetingRoom) :=
  logger.Info "GetMeetingRoomByID repository method called";;
  gets (λ w, First (λ room, Z.eqb (r_ID room) id) (meeting_rooms w)).

(* bookings *)

Definition CreateBooking (booking : Booking) : M (option error) :=
  logger.Info "CreateBooking repository method called";;
  Create InsertBooking
    (λ w, existsb (λ row, Z.eqb (b_ID row) (b_ID booking)) (bookings w))
    (set_bookings (λ t, t ++ [booking])).

Definition GetBookingByID (id : UUID) : M (result Booking) :=
  logger.Info "GetBookingByID repository method called";;
  gets (λ w, First (λ row, Z.eqb (b_ID row) id) (bookings w)).

(** The time condition of the availability query,
    [(start_time < ? AND end_time > ?) OR (start_time < ? AND
    end_time > ?) OR (start_time >= ? AND end_time <= ?)], the
    placeholders bound to [endTime, startTime, startTime, endTime,
    startTime, endTime]. *)
Definition overlap_condition (start_time end_time startTime endTime : time.Time) : bool :=
  ((start_time <? endTime) && (startTime <? end_time))      (* Overlaps at the start *)
  || ((start_time <? startTime) && (endTime <? end_time))   (* Overlaps at the end *)
  || ((startTime <=? start_time) && (end_time <=? endTime)). (* Completely within *)

(** The whole [Where] chain of the availability query on one row. *)
Definition conflicts (roomID : UUID) (startTime endTime : time.Time) (row : Booking)
  : bool :=
  Z.eqb (b_MeetingRoomID row) roomID
  && negb (String.eqb (b_Status row) "cancelled")
  && overlap_condition (b_StartTime row) (b_EndTime row) startTime endTime.

Definition CheckRoomAvailability (roomID : UUID) (startTime endTime : time.Time)
  : M (result bool) :=
  logger.Info "CheckRoomAvailability repository method called";;
  gets (λ w, Ok (Count (conflicts roomID startTime endTime) (bookings w) =? 0)).

Definition set_b_Status (status : string) (row : Booking) : Booking :=
  mkBooking (b_ID row) (b_CustomerID row) (b_MeetingRoomID row) (b_StartTime row)
            (b_EndTime row) (b_TotalPrice row) (b_VoucherID row) status
            (b_CreatedAt row).

Definition CancelBooking (id : UUID) : M (option error) :=
  logger.Info "CancelBooking repository method called";;
  Exec UpdateBookingCancelled
    (set_bookings (Update (λ row, Z.eqb (b_ID row) id) (set_b_Status "cancelled"))).

(* vouchers *)

Definition GetVoucherByCode (code : string) : M (result Voucher) :=
  logger.Info "GetVoucherByCode repository method called";;
  gets (λ w, First (λ row, String.eqb (v_Code row) code) (vouchers w)).

Definition incr_v_UsedCount (row : Voucher) : Voucher :=
  mkVoucher (v_ID row) (v_Code row) (v_DiscountPercent row) (v_MaxUses row)
            (v_UsedCount row + 1) (v_ValidFrom row) (v_ValidTo row).

Definition IncrementUsedCount (id : UUID) : M (option error) :=
  logger.Info "IncrementUsedCount repository method called";;
  Exec UpdateVoucherUsedCount
    (set_vouchers (Update (λ row, Z.eqb (v_ID row) id) incr_v_UsedCount)).

(* wallets and top-ups *)

Definition GetWalletByUserID (userID : UUID) : M (result Wallet) :=
  logger.Info "GetWalletByUserID repository method called";;
  gets (λ w, First (λ row, Z.eqb (w_UserID row) userID) (wallets w)).

(** [balance = balance + ?] on the rows of the user. *)
Definition UpdateBalance (userID : UUID) (amount : float) : M (option error) :=
  logger.Info "UpdateBalance repository method called";;
  Exec UpdateWalletCredit
    (set_wallets (Update (λ row, Z.eqb (w_UserID row) userID)
                         (λ row, mkWallet (w_UserID row) (w_Balance row + amount)%float))).

(** [balance = balance - ?] on the rows of the user with
    [balance >= ?], the comparison read as that of [float64]. *)
Definition DeductBalance (userID : UUID) (amount : float) : M (option error) :=
  logger.Info "DeductBalance repository method called";;
  Exec UpdateWalletDebit
    (set_wallets (Update (λ row, Z.eqb (w_UserID row) userID
                                 && (amount <=? w_Balance row)%float)
                         (λ row, mkWallet (w_UserID row) (w_Balance row - amount)%float))).

Definition GetTopupByID (id : UUID) : M (result Topup) :=
  logger.Info "GetTopupByID repository method called";;
  gets (λ w, First (λ row, Z.eqb (p_ID row) id) (topups w)).

Definition set_p_Status (status : string) (row : Topup) : Topup :=
  mkTopup (p_ID row) (p_UserID row) (p_Amount row) (p_Method row) status
          (p_CreatedAt row).

Definition UpdateTopupStatus (id : UUID) (status : string) : M (option error) :=
  logger.Info "UpdateTopupStatus repository method called";;
  Exec UpdateTopupStatusSt
    (set_topups (Update (λ row, Z.eqb (p_ID row) id) (set_p_Status status))).

(* transactions *)

Definition CreateTransaction (transaction : Transaction) : M (option error) :=
  logger.Info "CreateTransaction repository method called";;
  Create InsertTransaction
    (λ w, existsb (λ row, Z.eqb (t_ID row) (t_ID transaction)) (transactions w))
    (set_transactions (λ t, t ++ [transaction])).

End WithStore.

(** [Where(cond).Find(&rows)]: the rows that match. *)
Definition Find {A} (cond : A → bool) (table : list A) : list A :=
  List.filter cond table.

(** [Order(column)]: the rows sorted on the column.  SQL leaves the
    order of rows equal on it open; here it is the one the merge
    gives. *)
Definition Order {A} (R : relation A) `{∀ x y, Decision (R x y)} (rows : list A) : list A :=
  merge_sort R rows.

(** [db.Delete(&row, cond)]: the matching rows are gone from what the
    queries see. *)
Definition Delete {A} (cond : A → bool) (table : list A) : list A :=
  List.filter (λ row, negb (cond row)) table.

(** [db.Save(row)]: every column of the rows of its identifier is
    rewritten; with no such row it is inserted. *)
Definition Save {A} (key : A → bool) (row : A) (table : list A) : list A :=
  if existsb key table then Update key (λ _, row) table else table ++ [row].

(* the orders of the listings *)

Definition start_time_asc : relation Booking :=
  λ a b, b_StartTime a <= b_StartTime b.
Definition created_at_desc : relation Booking :=
  λ a b, b_CreatedAt b <= b_CreatedAt a.
Definition topup_created_at_desc : relation Topup :=
  λ a b, p_CreatedAt b <= p_CreatedAt a.
Definition paid_at_desc : relation Transaction :=
  λ a b, t_PaidAt b <= t_PaidAt a.

Global Instance start_time_asc_dec : RelDecision start_time_asc :=
  λ a b, decide (b_StartTime a <= b_StartTime b).
Global Instance created_at_desc_dec : RelDecision created_at_desc :=
  λ a b, decide (b_CreatedAt b <= b_CreatedAt a).
Global Instance topup_created_at_desc_dec : RelDecision topup_created_at_desc :=
  λ a b, decide (p_CreatedAt b <= p_CreatedAt a).
Global Instance paid_at_desc_dec : RelDecision paid_at_desc :=
  λ a b, decide (t_PaidAt b <= t_PaidAt a).

(* bookings *)

Definition GetBookingsByCustomer (customerID : UUID) : M (result (list Booking)) :=
  logger.Info "GetBookingsByCustomer repository method called";;
  gets (λ w, Ok (Order created_at_desc
                   (Find (λ row, Z.eqb (b_CustomerID row) customerID) (bookings w)))).

Definition GetBookingsByMeetingRoom (roomID : UUID) : M (result (list Booking)) :=
  logger.Info "GetBookingsByMeetingRoom repository method called";;
  gets (λ w, Ok (Order start_time_asc
                   (Find (λ row, Z.eqb (b_MeetingRoomID row) roomID) (bookings w)))).

(* top-ups *)

Definition GetTopupsByUser (userID : UUID) : M (result (list Topup)) :=
  logger.Info "GetTopupsByUser repository method called";;
  gets (λ w, Ok (Order topup_created_at_desc
                   (Find (λ row, Z.eqb (p_UserID row) userID) (topups w)))).

(* transactions *)

Definition GetTransactionsByUser (userID : UUID) : M (result (list Transaction)) :=
  logger.Info "GetTransactionsByUser repository method called";;
  gets (λ w, Ok (Order paid_at_desc
                   (Find (λ row, Z.eqb (t_UserID row) userID) (transactions w)))).

Definition GetTransactionsByService (serviceID : Z) (serviceRefID : UUID)
  : M (result (list Transaction)) :=
  logger.Info "GetTransactionsByService repository method called";;
  gets (λ w, Ok (Order paid_at_desc
                   (Find (λ row, Z.eqb (t_ServiceID row) serviceID
                                 && Z.eqb (t_ServiceRefID row) serviceRefID)
                         (transactions w)))).

(* vouchers *)

Definition GetVoucherByID (id : UUID) : M (result Voucher) :=
  logger.Info "GetVoucherByID repository method called";;
  gets (λ w, First (λ row, Z.eqb (v_ID row) id) (vouchers w)).

Definition GetAllVouchers : M (result (list Voucher)) :=
  logger.Info "GetAllVouchers repository method called";;
  gets (λ w, Ok (vouchers w)).

(** The condition of [GetValidVouchers] on a row: [valid_from <= ? AND
    valid_to >= ? AND (max_uses = 0 OR used_count < max_uses)], both
    placeholders bound to [now]. *)
Definition valid_at (now : time.Time) (row : Voucher) : bool :=
  (v_ValidFrom row <=? now) && (now <=? v_ValidTo row)
  && ((v_MaxUses row =? 0) || (v_UsedCount row <? v_MaxUses row)).

Section WithCall.
Variable call : Call.

(** A write statement of a call, as [Exec] above. *)
Definition ExecW (st : Write) (apply : World → World) : M (option error) :=
  λ w, if refuses call st then (Some ErrRejected, w) else (None, apply w).

(** An insert of a call, as [Create] above. *)
Definition CreateW (st : Write) (exists_ : World → bool) (apply : World → World)
  : M (option error) :=
  λ w, if refuses call st then (Some ErrRejected, w)
       else if exists_ w then (Some ErrDuplicatedKey, w)
       else (None, apply w).

Definition set_r_Available (available : bool) (row : MeetingRoom) : MeetingRoom :=
  mkMeetingRoom (r_ID row) (r_Name row) (r_PricePerHour row) available.

Definition UpdateRoomAvailability (id : UUID) (available : bool) : M (option error) :=
  logger.Info "UpdateRoomAvailability repository method called";;
  ExecW UpdateRoomAvailable
    (set_meeting_rooms (Update (λ row, Z.eqb (r_ID row) id) (set_r_Available available))).

Definition CreateTopup (topup : Topup) : M (option error) :=
  logger.Info "CreateTopup repository method called";;
  CreateW InsertTopup
    (λ w, existsb (λ row, Z.eqb (p_ID row) (p_ID topup)) (topups w))
    (set_topups (λ t, t ++ [topup])).

Definition CreateVoucher (voucher : Voucher) : M (option error) :=
  logger.Info "CreateVoucher repository method called";;
  CreateW InsertVoucher
    (λ w, existsb (λ row, Z.eqb (v_ID row) (v_ID voucher)) (vouchers w))
    (set_vouchers (λ t, t ++ [voucher])).

Definition GetValidVouchers : M (result (list Voucher)) :=
  logger.Info "GetValidVouchers repository method called";;
  gets (λ w, Ok (Find (valid_at (call_now call)) (vouchers w))).

Definition UpdateVoucher (voucher : Voucher) : M (option error) :=
  logger.Info "UpdateVoucher repository method called";;
  ExecW SaveVoucher
    (set_vouchers (Save (λ row, Z.eqb (v_ID row) (v_ID voucher)) voucher)).

Definition DeleteVoucher (id : UUID) : M (option error) :=
  logger.Info "DeleteVoucher repository method called";;
  ExecW DeleteVoucherRows
    (set_vouchers (Delete (λ row, Z.eqb (v_ID row) id))).

End WithCall.

End repository.

(** ** Package [usecase] *)

Module usecase.

Import request response.

Section WithRepositories.
Variable env : Env.

(** [log.Errorw] on a failed statement whose error is not returned. *)
Definition logged (msg : string) (err : option error) : M unit :=
  match err with
  | Some err => logger.Errorw msg err
  | None => mret tt
  end.

(** *** [bookingUsecase.CreateBooking] *)

(** The wallet check and the three settlement statements (from
    "Check wallet balance" to the end of the function). *)
Definition CreateBooking_settle (customerID : UUID) (req : request.CreateBooking)
    (room : MeetingRoom) (totalPrice : float) (voucherID : option UUID)
  : M (result BookingResponse) :=
  r ← repository.GetWalletByUserID customerID;
  match r with
  | Err _ => mret (Err (New "wallet not found"))
  | Ok wallet =>
    if (w_Balance wallet <? totalPrice)%float
    then mret (Err (New "insufficient balance"))
    else
      let booking :=
        mkBooking (new_booking_id env) customerID (MeetingRoomID req)
                  (StartTime req) (EndTime req) totalPrice
                  (default uuid_Nil voucherID) "booked" (now_created env) in
      err ← repository.CreateBooking env booking;
      match err with
      | Some err => mret (Err err)
      | None =>
        err ← repository.DeductBalance env customerID totalPrice;
        match err with
        | Some err =>
          logger.Errorw "Failed to deduct balance" err;;
          mret (Err (New "payment failed"))
        | None =>
          let transaction :=
            mkTransaction (new_transaction_id env) customerID 1 (b_ID booking)
                          totalPrice (now_paid env) "completed" in
          err ← repository.CreateTransaction env transaction;
          logged "Failed to create transaction" err;;
          mret (Ok (mkBookingResponse
                      (b_ID booking) (b_CustomerID booking)
                      (b_MeetingRoomID booking) (r_Name room)
                      (b_StartTime booking) (b_EndTime booking)
                      (b_TotalPrice booking) (b_VoucherID booking)
                      (b_Status booking) (b_CreatedAt booking)))
        end
      end
  end.

(** The price of the room over the requested interval. *)
Definition basePrice (room : MeetingRoom) (req : request.CreateBooking) : float :=
  let duration := time.Hours (time.Sub (EndTime req) (StartTime req)) in
  (r_PricePerHour room * duration)%float.

(** The price after the discount of a voucher. *)
Definition discounted (totalPrice : float) (voucher : Voucher) : float :=
  let discount := (totalPrice * float64 (v_DiscountPercent voucher) / 100)%float in
  (totalPrice - discount)%float.

Definition CreateBooking (customerID : UUID) (req : request.CreateBooking)
  : M (result BookingResponse) :=
  logger.Info "CreateBooking usecase called";;
  (* Validate time *)
  if time.Before (EndTime req) (StartTime req) || time.Equal (EndTime req) (StartTime req)
  then mret (Err (New "end time must be after start time"))
  else if time.Before (StartTime req) (now_check env)
  then mret (Err (New "cannot book in the past"))
  else
    (* Get meeting room *)
    r ← repository.GetMeetingRoomByID (MeetingRoomID req);
    match r with
    | Err err =>
      if errors_Is err ErrRecordNotFound
      then mret (Err (New "meeting room not found"))
      else mret (Err err)
    | Ok room =>
      if negb (r_Available room)
      then mret (Err (New "meeting room is not available"))
      else
        (* Check availability *)
        r ← repository.CheckRoomAvailability (MeetingRoomID req) (StartTime req) (EndTime req);
        match r with
        | Err err => mret (Err err)
        | Ok available =>
          if negb available
          then mret (Err (New "meeting room is already booked for this time slot"))
          else
            (* Calculate price *)
            let totalPrice := basePrice room req in
            (* Apply voucher if provided *)
            if negb (String.eqb (VoucherCode req) "")
            then
              r ← repository.GetVoucherByCode (VoucherCode req);
              match r with
              | Err err =>
                if errors_Is err ErrRecordNotFound
                then mret (Err (New "invalid voucher code"))
                else mret (Err err)
              | Ok voucher =>
                (* Validate voucher *)
                let now := now_voucher env in
                if time.Before now (v_ValidFrom voucher) || time.After now (v_ValidTo voucher)
                then mret (Err (New "voucher is not valid at this time"))
                else if (0 <? v_MaxUses voucher) && (v_MaxUses voucher <=? v_UsedCount voucher)
                then mret (Err (New "voucher has reached maximum uses"))
                else
                  (* Apply discount *)
                  let totalPrice := discounted totalPrice voucher in
                  (* Increment voucher usage *)
                  err ← repository.IncrementUsedCount env (v_ID voucher);
                  logged "Failed to increment voucher usage" err;;
                  CreateBooking_settle customerID req room totalPrice (Some (v_ID voucher))
              end
            else CreateBooking_settle customerID req room totalPrice None
        end
    end.

(** *** [bookingUsecase.CancelBooking] *)

Definition CancelBooking (customerID bookingID : UUID) : M (option error) :=
  r ← repository.GetBookingByID bookingID;
  match r with
  | Err err =>
    if errors_Is err ErrRecordNotFound
    then mret (Some (New "booking not found"))
    else mret (Some err)
  | Ok booking =>
    if negb (Z.eqb (b_CustomerID booking) customerID)
    then mret (Some (New "unauthorized to cancel this booking"))
    else if String.eqb (b_Status booking) "cancelled"
    then mret (Some (New "booking is already cancelled"))
    (* Only allow cancellation if booking is at least 24 hours away *)
    else if time.Until (now_check env) (b_StartTime booking) <? 24 * time.Hour
    then mret (Some (New "cannot cancel booking less than 24 hours before start time"))
    else
      (* Cancel booking *)
      err ← repository.CancelBooking env bookingID;
      match err with
      | Some err => mret (Some err)
      | None =>
        (* Refund to wallet *)
        err ← repository.UpdateBalance env customerID (b_TotalPrice booking);
        match err with
        | Some err =>
          logger.Errorw "Failed to refund balance" err;;
          mret (Some (New "failed to process refund"))
        | None =>
          (* Create refund transaction *)
          let transaction :=
            mkTransaction (new_transaction_id env) customerID 1 (b_ID booking)
                          (- b_TotalPrice booking)%float (now_paid env) "refunded" in
          err ← repository.CreateTransaction env transaction;
          logged "Failed to create refund transaction" err;;
          mret None
        end
      end
  end.

(** *** [walletUsecase.ConfirmTopup] *)

Definition ConfirmTopup (req : request.ConfirmTopup) : M (option error) :=
  logger.Info "ConfirmTopup usecase called";;
  r ← repository.GetTopupByID (TopupID req);
  match r with
  | Err err =>
    if errors_Is err ErrRecordNotFound
    then mret (Some (New "topup not found"))
    else mret (Some err)
  | Ok topup =>
    if negb (String.eqb (p_Status topup) "pending")
    then mret (Some (New "topup is not pending"))
    else
      (* Update topup status *)
      err ← repository.UpdateTopupStatus env (TopupID req) "completed";
      match err with
      | Some err => mret (Some err)
      | None =>
        (* Add balance to wallet *)
        err ← repository.UpdateBalance env (p_UserID topup) (p_Amount topup);
        match err with
        | Some err =>
          logger.Errorw "Failed to update wallet balance" err;;
          mret (Some (New "failed to update wallet balance"))
        | None =>
          (* Create transaction record *)
          let transaction :=
            mkTransaction (new_transaction_id env) (p_UserID topup) 2 (p_ID topup)
                          (p_Amount topup) (now_paid env) "completed" in
          err ← repository.CreateTransaction env transaction;
          logged "Failed to create transaction" err;;
          mret None
        end
      end
  end.

(** *** [voucherUsecase.ApplyVoucher] *)

Definition ApplyVoucher (req : request.ApplyVoucher) : M (result VoucherCalculation) :=
  r ← repository.GetVoucherByCode (av_VoucherCode req);
  match r with
  | Err err =>
    if errors_Is err ErrRecordNotFound
    then mret (Err (New "invalid voucher code"))
    else mret (Err err)
  | Ok voucher =>
    (* Validate voucher *)
    let now := now_voucher env in
    if time.Before now (v_ValidFrom voucher) || time.After now (v_ValidTo voucher)
    then mret (Err (New "voucher is not valid at this time"))
    else if (0 <? v_MaxUses voucher) && (v_MaxUses voucher <=? v_UsedCount voucher)
    then mret (Err (New "voucher has reached maximum uses"))
    else
      (* Calculate discount *)
      let discountAmount :=
        (av_Amount req * float64 (v_DiscountPercent voucher) / 100)%float in
      let finalAmount := (av_Amount req - discountAmount)%float in
      mret (Ok (mkVoucherCalculation (av_Amount req) discountAmount finalAmount
                                     (v_DiscountPercent voucher) (v_Code voucher)))
  end.

End WithRepositories.

(** *** The listings of [bookingUsecase] *)

(** [for _, x := range xs { result = append(result, f(x)) }]. *)
Fixpoint for_range {A B} (f : A → M B) (xs : list A) : M (list B) :=
  match xs with
  | [] => mret []
  | x :: xs =>
    y ← f x;
    result ← for_range f xs;
    mret (y :: result)
  end.

(** The response built from a row and a room name. *)
Definition booking_response (booking : Booking) (roomName : string) : BookingResponse :=
  mkBookingResponse (b_ID booking) (b_CustomerID booking) (b_MeetingRoomID booking)
                    roomName (b_StartTime booking) (b_EndTime booking)
                    (b_TotalPrice booking) (b_VoucherID booking) (b_Status booking)
                    (b_CreatedAt booking).

(** [room, _ := GetMeetingRoomByID(id)] and the name of the room, empty
    when there is none. *)
Definition room_name (id : UUID) : M string :=
  r ← repository.GetMeetingRoomByID id;
  mret (match r with Ok room => r_Name room | Err _ => "" end).

Definition GetBooking (bookingID : UUID) : M (result BookingResponse) :=
  r ← repository.GetBookingByID bookingID;
  match r with
  | Err err =>
    if errors_Is err ErrRecordNotFound
    then mret (Err (New "booking not found"))
    else mret (Err err)
  | Ok booking =>
    roomName ← room_name (b_MeetingRoomID booking);
    mret (Ok (booking_response booking roomName))
  end.

Definition GetCustomerBookings (customerID : UUID) : M (result (list BookingResponse)) :=
  r ← repository.GetBookingsByCustomer customerID;
  match r with
  | Err err => mret (Err err)
  | Ok bookings =>
    result ← for_range (λ booking,
                          roomName ← room_name (b_MeetingRoomID booking);
                          mret (booking_response booking roomName)) bookings;
    mret (Ok result)
  end.

Definition GetRoomBookings (roomID : UUID) : M (result (list BookingResponse)) :=
  r ← repository.GetBookingsByMeetingRoom roomID;
  match r with
  | Err err => mret (Err err)
  | Ok bookings =>
    result ← for_range (λ booking, mret (booking_response booking "")) bookings;
    mret (Ok result)
  end.

(** *** [walletUsecase]: the wallet and the top-ups *)

Definition GetWallet (userID : UUID) : M (result WalletResponse) :=
  r ← repository.GetWalletByUserID userID;
  match r with
  | Err err =>
    if errors_Is err ErrRecordNotFound
    then mret (Err (New "wallet not found"))
    else mret (Err err)
  | Ok wallet => mret (Ok (mkWalletResponse (w_UserID wallet) (w_Balance wallet)))
  end.

Definition topup_response (topup : Topup) : TopupResponse :=
  mkTopupResponse (p_ID topup) (p_UserID topup) (p_Amount topup) (p_Method topup)
                  (p_Status topup) (p_CreatedAt topup).

Definition GetTopupHistory (userID : UUID) : M (result (list TopupResponse)) :=
  r ← repository.GetTopupsByUser userID;
  match r with
  | Err err => mret (Err err)
  | Ok topups =>
    result ← for_range (λ topup, mret (topup_response topup)) topups;
    mret (Ok result)
  end.

Section WithCall.
Variable call : Call.

Definition CreateTopup (userID : UUID) (req : request.TopupWallet)
  : M (result TopupResponse) :=
  logger.Info "CreateTopup usecase called";;
  (* Verify wallet exists *)
  r ← repository.GetWalletByUserID userID;
  match r with
  | Err err =>
    if errors_Is err ErrRecordNotFound
    then mret (Err (New "wallet not found"))
    else mret (Err err)
  | Ok _ =>
    let topup := mkTopup (call_id call) userID (tw_Amount req) (tw_Method req)
                         "pending" (call_now call) in
    err ← repository.CreateTopup call topup;
    match err with
    | Some err => mret (Err err)
    | None => mret (Ok (topup_response topup))
    end
  end.

(** *** [voucherUsecase]: creating, updating and deleting vouchers *)

(** The row of the model has no column for the service of a voucher,
    which nothing in the settlement flow reads; the response of
    [CreateVoucher] takes it from the request, where the row of the
    code has it from. *)
Definition CreateVoucher (req : request.CreateVoucher) : M (result VoucherResponse) :=
  logger.Info "CreateVoucher usecase called";;
  (* Check if voucher code already exists *)
  r ← repository.GetVoucherByCode (cv_Code req);
  match r with
  | Ok _ => mret (Err (New "voucher code already exists"))
  | Err err =>
    if negb (errors_Is err ErrRecordNotFound)
    then mret (Err err)
    (* Validate dates *)
    else if time.Before (cv_ValidTo req) (cv_ValidFrom req)
    then mret (Err (New "valid_to must be after valid_from"))
    else
      let voucher := mkVoucher (call_id call) (cv_Code req) (cv_DiscountPercent req)
                               (cv_MaxUses req) 0 (cv_ValidFrom req) (cv_ValidTo req) in
      err ← repository.CreateVoucher call voucher;
      match err with
      | Some err => mret (Err err)
      | None =>
        mret (Ok (mkVoucherResponse (v_ID voucher) (v_Code voucher)
                    (v_DiscountPercent voucher) (v_MaxUses voucher)
                    (v_UsedCount voucher) (cv_ServiceID req)
                    (v_ValidFrom voucher) (v_ValidTo voucher)))
      end
  end.

(** The fields of the row an update request overwrites, after the
    check of the code. *)
Definition updated (voucher : Voucher) (req : request.UpdateVoucher) : Voucher :=
  let code := if negb (String.eqb (uv_Code req) "") then uv_Code req else v_Code voucher in
  let discountPercent :=
    if 0 <? uv_DiscountPercent req then uv_DiscountPercent req
    else v_DiscountPercent voucher in
  let maxUses := if 0 <=? uv_MaxUses req then uv_MaxUses req else v_MaxUses voucher in
  let validFrom := default (v_ValidFrom voucher) (uv_ValidFrom req) in
  let validTo := default (v_ValidTo voucher) (uv_ValidTo req) in
  mkVoucher (v_ID voucher) code discountPercent maxUses (v_UsedCount voucher)
            validFrom validTo.

(** The rest of [UpdateVoucher], from [req.DiscountPercent > 0] on. *)
Definition UpdateVoucher_save (voucher : Voucher) (req : request.UpdateVoucher)
  : M (option error) :=
  let voucher := updated voucher req in
  (* Validate dates *)
  if time.Before (v_ValidTo voucher) (v_ValidFrom voucher)
  then mret (Some (New "valid_to must be after valid_from"))
  else repository.UpdateVoucher call voucher.

Definition UpdateVoucher (req : request.UpdateVoucher) : M (option error) :=
  r ← repository.GetVoucherByID (uv_ID req);
  match r with
  | Err err =>
    if errors_Is err ErrRecordNotFound
    then mret (Some (New "voucher not found"))
    else mret (Some err)
  | Ok voucher =>
    if negb (String.eqb (uv_Code req) "")
    then
      (* Check if new code conflicts with existing vouchers *)
      r ← repository.GetVoucherByCode (uv_Code req);
      match r with
      | Ok existing =>
        if negb (Z.eqb (v_ID existing) (uv_ID req))
        then mret (Some (New "voucher code already exists"))
        else UpdateVoucher_save voucher req
      | Err _ => UpdateVoucher_save voucher req
      end
    else UpdateVoucher_save voucher req
  end.

Definition DeleteVoucher (voucherID : UUID) : M (option error) :=
  r ← repository.GetVoucherByID voucherID;
  match r with
  | Err err =>
    if errors_Is err ErrRecordNotFound
    then mret (Some (New "voucher not found"))
    else mret (Some err)
  | Ok _ => repository.DeleteVoucher call voucherID
  end.

End WithCall.

End usecase.


(** * Notions of the specification *)

Import request response.

(** The tables of the store, the log left out. *)
Definition tables (w : World) :=
  (meeting_rooms w, bookings w, vouchers w, wallets w, topups w, transactions w).

(** What the lookups of the repositories find. *)
Definition room_with (id : UUID) (w : World) : option MeetingRoom :=
  find (λ room, Z.eqb (r_ID room) id) (meeting_rooms w).
Definition booking_with (id : UUID) (w : World) : option Booking :=
  find (λ row, Z.eqb (b_ID row) id) (bookings w).
Definition voucher_with (code : string) (w : World) : option Voucher :=
  find (λ row, String.eqb (v_Code row) code) (vouchers w).
Definition wallet_of (userID : UUID) (w : World) : option Wallet :=
  find (λ row, Z.eqb (w_UserID row) userID) (wallets w).
Definition topup_with (id : UUID) (w : World) : option Topup :=
  find (λ row, Z.eqb (p_ID row) id) (topups w).

Definition balance_of (userID : UUID) (w : World) : option float :=
  w_Balance <$> wallet_of userID w.

(** A [float64] that is a number: [x == x] holds of every value but NaN. *)
Definition is_number (x : float) : Prop := (x =? x)%float = true.

(** The ledger takes the next transaction: the insert is not rejected
    and the fresh identifier is not in use. *)
Definition ledger_accepts (env : Env) (w : World) : Prop :=
  rejects env InsertTransaction = false
  ∧ existsb (λ row, Z.eqb (t_ID row) (new_transaction_id env)) (transactions w) = false.

(** The errors of the preconditions of [CreateBooking]. *)
Definition precondition_errors : list error :=
  [InvalidTimeRange; PastBooking; RoomNotFound; RoomUnavailable; SlotConflict;
   InvalidVoucher; VoucherExpired; VoucherExhausted; WalletNotFound;
   InsufficientBalance].

(** The reference overlap test of the specification, following its
    words: two intervals [[a,b)] and [[c,d)] overlap iff [a < d] and
    [c < b]. *)
Definition overlap (a b c d : time.Time) : Prop := a < d ∧ c < b.

Definition cancelled (b : Booking) : Prop := b_Status b = "cancelled".

(** No two distinct rows of non-cancelled bookings on one room overlap. *)
Definition no_double_booking (t : list Booking) : Prop :=
  ∀ (i j : nat) (b1 b2 : Booking),
    i ≠ j → t !! i = Some b1 → t !! j = Some b2 →
    b_MeetingRoomID b1 = b_MeetingRoomID b2 →
    ¬ cancelled b1 → ¬ cancelled b2 →
    ¬ overlap (b_StartTime b1) (b_EndTime b1) (b_StartTime b2) (b_EndTime b2).

(** The states the two booking operations reach, one call after the
    other, from a store without bookings; a call counts whatever it
    returns. *)
Inductive reachable : World → Prop :=
  | reach_init (w : World) :
      bookings w = [] → reachable w
  | reach_create (env : Env) (customerID : UUID) (req : request.CreateBooking) (w : World) :
      reachable w → reachable (snd (usecase.CreateBooking env customerID req w))
  | reach_cancel (env : Env) (customerID bookingID : UUID) (w : World) :
      reachable w → reachable (snd (usecase.CancelBooking env customerID bookingID w)).

(** [ConfirmTopup] called again and again on one top-up, each call in
    an environment of its own: the results in order, and the world the
    last call leaves. *)
Fixpoint ConfirmTopup_again (envs : list Env) (req : request.ConfirmTopup) (w : World)
  : list (option error) * World :=
  match envs with
  | [] => ([], w)
  | env :: envs =>
    let '(err, w') := usecase.ConfirmTopup env req w in
    let '(errs, w'') := ConfirmTopup_again envs req w' in
    (err :: errs, w'')
  end.



(** ** Listings, vouchers and calls *)

(** The name [GetBooking] and [GetCustomerBookings] show for a room:
    that of the room of the identifier, empty when there is none. *)
Definition room_name_of (id : UUID) (w : World) : string :=
  match room_with id w with Some room => r_Name room | None => "" end.

(** The answer of a booking once it is cancelled. *)
Definition cancelled_response (resp : BookingResponse) : BookingResponse :=
  mkBookingResponse (br_ID resp) (br_CustomerID resp) (br_MeetingRoomID resp)
                    (br_RoomName resp) (br_StartTime resp) (br_EndTime resp)
                    (br_TotalPrice resp) (br_VoucherID resp) "cancelled"
                    (br_CreatedAt resp).

(** The errors of the voucher use case. *)
Definition VoucherCodeExists : error := New "voucher code already exists".
Definition InvalidValidity : error := New "valid_to must be after valid_from".
Definition VoucherNotFound : error := New "voucher not found".

(** What [GetVoucherByID] finds. *)
Definition voucher_by_id (id : UUID) (w : World) : option Voucher :=
  find (λ row, Z.eqb (v_ID row) id) (vouchers w).

(** The voucher table is well formed: no identifier and no code occurs
    twice, and no validity window ends before it starts. *)
Definition vouchers_ok (t : list Voucher) : Prop :=
  NoDup (v_ID <$> t) ∧ NoDup (v_Code <$> t)
  ∧ Forall (λ row, v_ValidFrom row <= v_ValidTo row) t.

(** A limited voucher has not been used more often than its limit. *)
Definition within_limit (row : Voucher) : Prop :=
  0 < v_MaxUses row → v_UsedCount row <= v_MaxUses row.

(** ** Concrete stores for the scenarios *)

Definition day : time.Duration := 24 * time.Hour.

(** An environment whose clock reads [t] at every call, whose fresh
    identifiers are [id] for a booking and [id + 1] for a transaction,
    and whose store rejects the statements [st] says. *)
Definition env_at (t : time.Time) (id : UUID) (st : Statement → bool) : Env :=
  mkEnv t t t t id (id + 1) st.

Definition accept_all : Statement → bool := λ _, false.
Definition reject_ledger : Statement → bool :=
  λ st, match st with InsertTransaction => true | _ => false end.
Definition reject_credit : Statement → bool :=
  λ st, match st with UpdateWalletCredit => true | _ => false end.

(** Room 7 at 10.0 per hour, the 10% voucher "TEN", the 20% voucher
    "TWENTY", and the wallet of customer 1 holding [balance]. *)
Definition shop (balance : float) : World :=
  mkWorld [mkMeetingRoom 7 "Blue room" 10 true] []
          [mkVoucher 3 "TEN" 10 0 0 0 (100 * day);
           mkVoucher 4 "TWENTY" 20 0 0 0 (100 * day)]
          [mkWallet 1 balance] [] [] [].

(** The booking of room 7 on day 11, 09:00 to 11:00. *)
Definition nine_to_eleven (code : string) : request.CreateBooking :=
  mkCreateBooking 7 (11 * day + 9 * time.Hour) (11 * day + 11 * time.Hour) code.

(** The answer to customer 1 booking it on day 10 with the voucher
    "TEN", and the store afterwards. *)
Definition booked_response : BookingResponse :=
  mkBookingResponse 100 1 7 "Blue room" (11 * day + 9 * time.Hour)
                    (11 * day + 11 * time.Hour) 18 3 "booked" (10 * day).

Definition booked : World :=
  snd (usecase.CreateBooking (env_at (10 * day) 100 accept_all) 1
         (nine_to_eleven "TEN") (shop 50)).

(** The row of that booking. *)
Definition booked_row : Booking :=
  mkBooking 100 1 7 (11 * day + 9 * time.Hour) (11 * day + 11 * time.Hour) 18 3
            "booked" (10 * day).

(** A room at [2^1023] per hour: the price of two hours exceeds the
    largest [float64]. *)
Definition bank : World :=
  mkWorld [mkMeetingRoom 7 "Vault" 0x1p+1023 true] []
          [mkVoucher 3 "TEN" 10 0 0 0 (100 * day)]
          [mkWallet 1 50] [] [] [].

(** A store with the pending top-up 9 of 25.0 for customer 1. *)
Definition pending_row : Topup := mkTopup 9 1 25 "card" "pending" 0.

Definition topup_pending : World :=
  mkWorld [] [] [] [mkWallet 1 50] [pending_row] [] [].


(** The store after customer 1 has also booked the room from 11:00 to
    13:00 of that day, without a voucher, and the row of this booking. *)
Definition booked_twice : World :=
  snd (usecase.CreateBooking (env_at (10 * day) 200 accept_all) 1
         (mkCreateBooking 7 (11 * day + 11 * time.Hour) (11 * day + 13 * time.Hour) "")
         booked).

Definition adjacent_row : Booking :=
  mkBooking 200 1 7 (11 * day + 11 * time.Hour) (11 * day + 13 * time.Hour) 20 uuid_Nil
            "booked" (10 * day).



(** Room 7 with the voucher "ONCE", of 50% and a single use, and the
    wallet of customer 1 holding 50.0. *)
Definition outlet : World :=
  mkWorld [mkMeetingRoom 7 "Blue room" 10 true] []
          [mkVoucher 5 "ONCE" 50 1 0 0 (100 * day)]
          [mkWallet 1 50] [] [] [].

(** A call whose clock reads [t], whose fresh identifier is [id] and
    whose store refuses the statements [st] says. *)
Definition call_at (t : time.Time) (id : UUID) (st : Write → bool) : Call :=
  mkCall id t st.

Definition accept_writes : Write → bool := λ _, false.

(** The store of customer 1 with a wallet and nothing else. *)
Definition purse (balance : float) : World :=
  mkWorld [] [] [] [mkWallet 1 balance] [] [] [].

(** The first voucher of [shop]. *)
Definition ten : Voucher := mkVoucher 3 "TEN" 10 0 0 0 (100 * day).


(** * Properties *)

(** ** Running the code symbolically *)

Ltac unfold_calls :=
  unfold repository.GetMeetingRoomByID, repository.CheckRoomAvailability,
    repository.GetVoucherByCode, repository.IncrementUsedCount,
    repository.GetWalletByUserID, repository.CreateBooking,
    repository.DeductBalance, repository.CreateTransaction,
    repository.GetBookingByID, repository.CancelBooking,
    repository.UpdateBalance, repository.GetTopupByID,
    repository.UpdateTopupStatus, repository.Exec, repository.Create,
    repository.First, usecase.logged, logger.Info, logger.Errorw, gets, modify,
    mbind, M_bind, mret, M_ret in *.

Ltac proj :=
  cbn [fst snd meeting_rooms bookings vouchers wallets topups transactions logs
       set_logs set_vouchers set_wallets set_transactions set_bookings set_topups
       tables room_with booking_with voucher_with wallet_of topup_with balance_of] in *.

(** One branch of the code under the goal. *)
Ltac branch :=
  match goal with
  | |- context [if ?c then _ else _] => destruct c eqn:?
  | |- context [match ?x with Some _ => _ | None => _ end] => destruct x eqn:?
  | |- context [match ?x with Ok _ => _ | Err _ => _ end] => destruct x eqn:?
  end.

(** Every branch of it. *)
Ltac run := cbn beta iota zeta; proj; repeat (branch; proj).

(** ** Tables *)

Lemma Count_zero {A} (cond : A → bool) (table : list A) :
  (repository.Count cond table =? 0) = true ↔ Forall (λ row, cond row = false) table.
Proof.
  unfold repository.Count. rewrite Z.eqb_eq.
  induction table as [|row table IH]; simpl.
  - split; [constructor | reflexivity].
  - destruct (cond row) eqn:Hrow; simpl.
    + split; [lia | inversion 1; congruence].
    + rewrite IH. split; [by constructor | by inversion 1].
Qed.

Lemma Count_nonzero {A} (cond : A → bool) (table : list A) :
  (repository.Count cond table =? 0) = false ↔ Exists (λ row, cond row = true) table.
Proof.
  unfold repository.Count. rewrite Z.eqb_neq.
  induction table as [|row table IH]; simpl.
  - split; [lia | inversion 1].
  - destruct (cond row) eqn:Hrow; simpl.
    + split; [by left | lia].
    + rewrite IH. split; [by right | inversion 1; [congruence | done]].
Qed.

Lemma find_Update {A} (key cond : A → bool) (set : A → A) (table : list A) :
  (∀ row, key (set row) = key row) →
  find key (repository.Update cond set table)
  = (λ row, if cond row then set row else row) <$> find key table.
Proof.
  intros Hkey. unfold repository.Update.
  induction table as [|row table IH]; simpl; [done|].
  destruct (cond row) eqn:Hc; rewrite ?Hkey; destruct (key row); simpl; by rewrite ?Hc.
Qed.

Lemma lookup_Update {A} (cond : A → bool) (set : A → A) (table : list A) (i : nat) :
  repository.Update cond set table !! i
  = (λ row, if cond row then set row else row) <$> table !! i.
Proof. unfold repository.Update. apply list_lookup_fmap. Qed.

Lemma Update_unmatched {A} (cond : A → bool) (set : A → A) (table : list A) :
  existsb cond table = false → repository.Update cond set table = table.
Proof.
  unfold repository.Update. induction table as [|row table IH]; [done|].
  rewrite fmap_cons. cbn [existsb]. destruct (cond row); [done|].
  intros H. by rewrite IH.
Qed.

Lemma find_None_existsb {A} (key : A → bool) (table : list A) :
  find key table = None → existsb key table = false.
Proof.
  intros H. apply not_true_is_false. intros (row & Hin & Hkey)%existsb_exists.
  by rewrite (find_none _ _ H _ Hin) in Hkey.
Qed.

(** ** The overlap condition *)

Lemma overlap_condition_iff (a b c d : time.Time) :
  a < b → c < d → repository.overlap_condition a b c d = true ↔ overlap a b c d.
Proof.
  intros Hab Hcd. unfold repository.overlap_condition, overlap.
  rewrite !orb_true_iff, !andb_true_iff, !Z.ltb_lt, !Z.leb_le. lia.
Qed.

Lemma overlap_condition_false (a b c d : time.Time) :
  repository.overlap_condition a b c d = false → ¬ overlap a b c d.
Proof.
  unfold repository.overlap_condition, overlap.
  rewrite !orb_false_iff, !andb_false_iff, !Z.ltb_ge. lia.
Qed.

Lemma cancelled_eqb (row : Booking) :
  String.eqb (b_Status row) "cancelled" = true ↔ cancelled row.
Proof. apply String.eqb_eq. Qed.

Lemma conflicts_iff (roomID : UUID) (s e : time.Time) (row : Booking) :
  b_StartTime row < b_EndTime row → s < e →
  repository.conflicts roomID s e row = true
  ↔ b_MeetingRoomID row = roomID ∧ ¬ cancelled row
    ∧ overlap (b_StartTime row) (b_EndTime row) s e.
Proof.
  intros Hrow Hse. unfold repository.conflicts.
  rewrite !andb_true_iff, Z.eqb_eq, negb_true_iff, <- not_true_iff_false,
    cancelled_eqb, overlap_condition_iff by done.
  tauto.
Qed.

(** C4 (overlap-predicate equivalence).  On intervals [[a,b)] and
    [[c,d)] (so [a < b] and [c < d]) the three-disjunct condition of the
    availability query holds exactly when the reference test [a < d] and
    [c < b] does; hence, the stored intervals being intervals,
    [CheckRoomAvailability] reports a conflict (answers [false]) exactly
    when some non-cancelled booking of the room overlaps the requested
    interval. *)
Theorem availability_condition_is_overlap
    (a b c d : time.Time) (roomID : UUID) (w : World) :
  a < b → c < d →
  Forall (λ row, b_StartTime row < b_EndTime row) (bookings w) →
  (repository.overlap_condition a b c d = true ↔ overlap a b c d)
  ∧ (fst (repository.CheckRoomAvailability roomID c d w) = Ok false
     ↔ ∃ row, row ∈ bookings w ∧ b_MeetingRoomID row = roomID ∧ ¬ cancelled row
              ∧ overlap (b_StartTime row) (b_EndTime row) c d).
Proof.
  intros Hab Hcd Hrows. split; [by apply overlap_condition_iff|].
  unfold_calls. proj.
  rewrite Forall_forall in Hrows.
  split.
  - intros H. assert (Hc : (repository.Count (repository.conflicts roomID c d) (bookings w) =? 0) = false)
      by congruence.
    apply Count_nonzero, Exists_exists in Hc as (row & Hin & Hrow).
    exists row. split; [done|]. apply conflicts_iff; auto.
  - intros (row & Hin & Hrow).
    assert (Hc : (repository.Count (repository.conflicts roomID c d) (bookings w) =? 0) = false).
    { apply Count_nonzero, Exists_exists. exists row. split; [done|].
      apply conflicts_iff; auto. }
    by rewrite Hc.
Qed.

Lemma availability_condition_is_overlap_witness :
  (repository.overlap_condition 0 10 (11 * day + 10 * time.Hour) (11 * day + 12 * time.Hour) = true
   ↔ overlap 0 10 (11 * day + 10 * time.Hour) (11 * day + 12 * time.Hour))
  ∧ (fst (repository.CheckRoomAvailability 7 (11 * day + 10 * time.Hour)
            (11 * day + 12 * time.Hour) booked) = Ok false
     ↔ ∃ row, row ∈ bookings booked ∧ b_MeetingRoomID row = 7 ∧ ¬ cancelled row
              ∧ overlap (b_StartTime row) (b_EndTime row)
                        (11 * day + 10 * time.Hour) (11 * day + 12 * time.Hour)).
Proof.
  apply availability_condition_is_overlap.
  - reflexivity.
  - reflexivity.
  - vm_compute. repeat constructor.
Defined.

(** Off the intervals the condition is the wider one: a request that
    ends before it starts meets the second disjunct on a row the
    reference test keeps apart from it.  [CreateBooking] never issues
    such a query, its first check refusing the request. *)
Remark overlap_condition_off_intervals :
  repository.overlap_condition 5 6 10 0 = true ∧ ¬ overlap 5 6 10 0.
Proof. split; [reflexivity|]. unfold overlap. lia. Qed.

(** ** The invariant of the booking table *)

Lemma overlap_sym (a b c d : time.Time) : overlap a b c d ↔ overlap c d a b.
Proof. unfold overlap. lia. Qed.

Lemma conflicts_false (roomID : UUID) (s e : time.Time) (row : Booking) :
  repository.conflicts roomID s e row = false →
  b_MeetingRoomID row = roomID → ¬ cancelled row →
  ¬ overlap (b_StartTime row) (b_EndTime row) s e.
Proof.
  unfold repository.conflicts. intros H Hroom Hst.
  apply overlap_condition_false.
  apply Z.eqb_eq in Hroom. rewrite Hroom in H.
  rewrite <- cancelled_eqb in Hst. apply not_true_is_false in Hst.
  rewrite Hst in H. exact H.
Qed.

Lemma no_double_booking_insert (t : list Booking) (b : Booking) :
  no_double_booking t →
  Forall (λ row, repository.conflicts (b_MeetingRoomID b) (b_StartTime b) (b_EndTime b) row = false) t →
  no_double_booking (t ++ [b]).
Proof.
  intros Ht Hfree i j b1 b2 Hij H1 H2 Hroom Hc1 Hc2.
  rewrite Forall_forall in Hfree.
  apply lookup_app_Some in H1 as [H1|[Hi H1]], H2 as [H2|[Hj H2]].
  - by eapply Ht.
  - apply list_lookup_singleton_Some in H2 as [_ <-].
    eapply conflicts_false; [apply Hfree; by eapply list_elem_of_lookup_2|done..].
  - apply list_lookup_singleton_Some in H1 as [_ <-].
    rewrite overlap_sym.
    eapply conflicts_false; [apply Hfree; by eapply list_elem_of_lookup_2|done..].
  - apply list_lookup_singleton_Some in H1 as [Hi' _], H2 as [Hj' _]. lia.
Qed.

Lemma no_double_booking_cancel (cond : Booking → bool) (t : list Booking) :
  no_double_booking t →
  no_double_booking (repository.Update cond (repository.set_b_Status "cancelled") t).
Proof.
  intros Ht i j b1 b2 Hij H1 H2 Hroom Hc1 Hc2.
  rewrite lookup_Update in H1, H2.
  destruct (t !! i) as [r1|] eqn:E1; [|done].
  destruct (t !! j) as [r2|] eqn:E2; [|done].
  simpl in H1, H2. injection H1 as <-. injection H2 as <-.
  destruct (cond r1); [by destruct Hc1|].
  destruct (cond r2); [by destruct Hc2|].
  by eapply Ht.
Qed.

Lemma valid_time_range (startTime endTime : time.Time) :
  time.Before endTime startTime || time.Equal endTime startTime = false →
  startTime < endTime.
Proof.
  unfold time.Before, time.Equal.
  rewrite orb_false_iff, Z.ltb_ge, Z.eqb_neq. lia.
Qed.

(** What [CreateBooking] does to the booking table: nothing, or one row
    appended, for the requested room and interval, the interval in
    order and the availability query having counted no row. *)
Lemma CreateBooking_bookings env cid req w :
  let t' := bookings (snd (usecase.CreateBooking env cid req w)) in
  t' = bookings w ∨
  ∃ b, t' = bookings w ++ [b] ∧ b_MeetingRoomID b = MeetingRoomID req
       ∧ b_StartTime b = StartTime req ∧ b_EndTime b = EndTime req
       ∧ StartTime req < EndTime req
       ∧ (repository.Count
            (repository.conflicts (MeetingRoomID req) (StartTime req) (EndTime req))
            (bookings w) =? 0) = true.
Proof.
  unfold usecase.CreateBooking, usecase.CreateBooking_settle. unfold_calls.
  cbn beta iota zeta. proj.
  repeat (branch; proj; try (left; reflexivity)).
  all: right; eexists; split; [reflexivity|]; simpl; repeat split;
    [by apply valid_time_range | by apply negb_false_iff].
Qed.

(** What [CancelBooking] does to it: nothing, or the rows of the
    identifier set to cancelled. *)
Lemma CancelBooking_bookings env cid bid w :
  let t' := bookings (snd (usecase.CancelBooking env cid bid w)) in
  t' = bookings w ∨
  t' = repository.Update (λ row, Z.eqb (b_ID row) bid) (repository.set_b_Status "cancelled") (bookings w).
Proof.
  unfold usecase.CancelBooking. unfold_calls.
  cbn beta iota zeta. proj.
  repeat (branch; proj; try (left; reflexivity)); right; reflexivity.
Qed.

(** C1 (no double booking).  In every state the booking operations
    reach, called one after the other, no two distinct bookings of one
    room that are not cancelled have overlapping intervals. *)
Theorem no_double_booking_reachable (w : World) :
  reachable w → no_double_booking (bookings w).
Proof.
  induction 1 as [w Hw|env cid req w _ IH|env cid bid w _ IH].
  - rewrite Hw. intros i j b1 b2 _ H. by rewrite lookup_nil in H.
  - destruct (CreateBooking_bookings env cid req w)
      as [->|(b & -> & Hroom & Hs & He & _ & Hfree)]; [done|].
    apply no_double_booking_insert; [done|].
    rewrite Hroom, Hs, He. by apply Count_zero.
  - destruct (CancelBooking_bookings env cid bid w) as [->| ->]; [done|].
    by apply no_double_booking_cancel.
Qed.

Lemma no_double_booking_reachable_witness :
  bookings booked_twice = [booked_row; adjacent_row]
  ∧ b_MeetingRoomID booked_row = b_MeetingRoomID adjacent_row
  ∧ no_double_booking (bookings booked_twice)
  ∧ ¬ overlap (b_StartTime booked_row) (b_EndTime booked_row)
              (b_StartTime adjacent_row) (b_EndTime adjacent_row).
Proof.
  pose proof (no_double_booking_reachable booked_twice) as Hfree.
  split; [vm_compute; reflexivity|]. split; [reflexivity|].
  assert (Hreach : reachable booked_twice)
    by (apply reach_create, reach_create, reach_init; reflexivity).
  split; [exact (Hfree Hreach)|].
  apply (Hfree Hreach 0%nat 1%nat booked_row adjacent_row);
    [discriminate|vm_compute; reflexivity|vm_compute; reflexivity|reflexivity
    |discriminate|discriminate].
Defined.

(** Room 7 being booked from 09:00 to 11:00, a request for 10:00 to
    12:00 is refused. *)
Example booked_slot_conflict :
  fst (usecase.CreateBooking (env_at (10 * day) 102 accept_all) 1
         (mkCreateBooking 7 (11 * day + 10 * time.Hour) (11 * day + 12 * time.Hour) "")
         booked) = Err SlotConflict.
Proof. vm_compute. reflexivity. Qed.

(** The stored intervals are in order in every reachable state. *)
Lemma reachable_intervals (w : World) :
  reachable w → Forall (λ row, b_StartTime row < b_EndTime row) (bookings w).
Proof.
  induction 1 as [w Hw|env cid req w _ IH|env cid bid w _ IH].
  - rewrite Hw. constructor.
  - destruct (CreateBooking_bookings env cid req w)
      as [->|(b & -> & _ & Hs & He & Hse & _)]; [done|].
    apply Forall_app. split; [done|]. constructor; [lia|constructor].
  - destruct (CancelBooking_bookings env cid bid w) as [->| ->]; [done|].
    unfold repository.Update. apply Forall_fmap.
    eapply Forall_impl; [exact IH|]. intros row Hrow. simpl.
    by destruct (b_ID row =? bid).
Qed.

(** ** Validation of the requested interval *)

(** C9 (time-range validation).  A request whose end is not after its
    start fails with [InvalidTimeRange]; one whose interval is in order
    but starts before the current time fails with [PastBooking].  In
    both cases the tables are as before and the log has gained the line
    of the use case alone: no repository method, each of which logs its
    call, has run. *)
Theorem CreateBooking_validates_time
    (env : Env) (customerID : UUID) (req : request.CreateBooking) (w : World) :
  (EndTime req <= StartTime req →
   fst (usecase.CreateBooking env customerID req w) = Err InvalidTimeRange
   ∧ tables (snd (usecase.CreateBooking env customerID req w)) = tables w
   ∧ logs (snd (usecase.CreateBooking env customerID req w))
     = logs w ++ ["CreateBooking usecase called"])
  ∧ (StartTime req < EndTime req → StartTime req < now_check env →
     fst (usecase.CreateBooking env customerID req w) = Err PastBooking
     ∧ tables (snd (usecase.CreateBooking env customerID req w)) = tables w
     ∧ logs (snd (usecase.CreateBooking env customerID req w))
       = logs w ++ ["CreateBooking usecase called"]).
Proof.
  unfold usecase.CreateBooking, time.Before, time.Equal. unfold_calls.
  split.
  - intros H.
    destruct (Z.ltb_spec (EndTime req) (StartTime req)); [done|].
    destruct (Z.eqb_spec (EndTime req) (StartTime req)); [done|lia].
  - intros H1 H2.
    destruct (Z.ltb_spec (EndTime req) (StartTime req)); [lia|].
    destruct (Z.eqb_spec (EndTime req) (StartTime req)); [lia|].
    destruct (Z.ltb_spec (StartTime req) (now_check env)); [done|lia].
Qed.

Lemma CreateBooking_validates_time_witness :
  (fst (usecase.CreateBooking (env_at (10 * day) 100 accept_all) 1
          (mkCreateBooking 7 (12 * day) (11 * day) "") (shop 50)) = Err InvalidTimeRange
   ∧ tables (snd (usecase.CreateBooking (env_at (10 * day) 100 accept_all) 1
                    (mkCreateBooking 7 (12 * day) (11 * day) "") (shop 50)))
     = tables (shop 50)
   ∧ logs (snd (usecase.CreateBooking (env_at (10 * day) 100 accept_all) 1
                  (mkCreateBooking 7 (12 * day) (11 * day) "") (shop 50)))
     = logs (shop 50) ++ ["CreateBooking usecase called"])
  ∧ (fst (usecase.CreateBooking (env_at (10 * day) 100 accept_all) 1
            (mkCreateBooking 7 (9 * day) (11 * day) "") (shop 50)) = Err PastBooking
     ∧ tables (snd (usecase.CreateBooking (env_at (10 * day) 100 accept_all) 1
                      (mkCreateBooking 7 (9 * day) (11 * day) "") (shop 50)))
       = tables (shop 50)
     ∧ logs (snd (usecase.CreateBooking (env_at (10 * day) 100 accept_all) 1
                    (mkCreateBooking 7 (9 * day) (11 * day) "") (shop 50)))
       = logs (shop 50) ++ ["CreateBooking usecase called"]).
Proof.
  split.
  - apply (proj1 (CreateBooking_validates_time _ _ _ _)). vm_compute. discriminate.
  - apply (proj2 (CreateBooking_validates_time _ _ _ _)); reflexivity.
Defined.

(** ** Failed preconditions and the voucher counter *)

(** A call that fails a precondition stores no booking, touches no
    wallet and appends no transaction; the vouchers are not in the
    list. *)
Lemma CreateBooking_precondition_frame
    (env : Env) (customerID : UUID) (req : request.CreateBooking) (w : World) (e : error) :
  fst (usecase.CreateBooking env customerID req w) = Err e →
  In e precondition_errors →
  bookings (snd (usecase.CreateBooking env customerID req w)) = bookings w
  ∧ wallets (snd (usecase.CreateBooking env customerID req w)) = wallets w
  ∧ transactions (snd (usecase.CreateBooking env customerID req w)) = transactions w.
Proof.
  unfold usecase.CreateBooking, usecase.CreateBooking_settle.
  unfold_calls. cbn beta iota zeta. proj.
  repeat (branch; proj); intros [= <-] Hin; try done.
  all: simpl in Hin; intuition discriminate.
Qed.

(** C2, at the failing input.  Customer 1 holds 5.0 and books two hours
    of room 7 with the voucher "TEN", for 18.0: the call fails with
    [InsufficientBalance], no booking is stored, the wallet and the
    ledger are as before, and yet the voucher's [UsedCount] has gone
    from 0 to 1, for [IncrementUsedCount] runs before the balance is
    looked at. *)
Theorem insufficient_balance_consumes_voucher :
  fst (usecase.CreateBooking (env_at (10 * day) 100 accept_all) 1
         (nine_to_eleven "TEN") (shop 5))
  = Err InsufficientBalance
  ∧ bookings (snd (usecase.CreateBooking (env_at (10 * day) 100 accept_all) 1
                     (nine_to_eleven "TEN") (shop 5))) = []
  ∧ wallets (snd (usecase.CreateBooking (env_at (10 * day) 100 accept_all) 1
                    (nine_to_eleven "TEN") (shop 5))) = wallets (shop 5)
  ∧ transactions (snd (usecase.CreateBooking (env_at (10 * day) 100 accept_all) 1
                         (nine_to_eleven "TEN") (shop 5))) = []
  ∧ v_UsedCount <$> voucher_with "TEN" (shop 5) = Some 0
  ∧ v_UsedCount <$> voucher_with "TEN"
      (snd (usecase.CreateBooking (env_at (10 * day) 100 accept_all) 1
              (nine_to_eleven "TEN") (shop 5))) = Some 1.
Proof. vm_compute. done. Qed.

(** ** The guarded debit *)

(** The only error of [DeductBalance] is the store's rejection of the
    statement. *)
Lemma DeductBalance_error (env : Env) (userID : UUID) (amount : float) (w : World) :
  fst (repository.DeductBalance env userID amount w)
  = if rejects env UpdateWalletDebit then Some ErrRejected else None.
Proof. unfold_calls. proj. by destruct (rejects env UpdateWalletDebit). Qed.

(** [CreateBooking] answers [PaymentFailed] only on such a rejection. *)
Lemma PaymentFailed_rejected
    (env : Env) (customerID : UUID) (req : request.CreateBooking) (w : World) :
  fst (usecase.CreateBooking env customerID req w) = Err PaymentFailed →
  rejects env UpdateWalletDebit = true.
Proof.
  unfold usecase.CreateBooking, usecase.CreateBooking_settle.
  unfold_calls. cbn beta iota zeta. proj.
  repeat (branch; proj); try done; intros [=]; done.
Qed.

(** C3, at the failing input.  The wallet of customer 1 holds 50.0: a
    debit of 60.0 subtracts nothing and returns [nil], and so does a
    debit on customer 2, who has no wallet.  Nor does [CreateBooking]
    report a debit that subtracted nothing: where the price is NaN the
    balance check passes, the guard of the debit matches no row, and
    the call returns the booking with the balance still at 50.0. *)
Theorem DeductBalance_reports_no_failure :
  fst (repository.DeductBalance (env_at (10 * day) 100 accept_all) 1 60 (shop 50)) = None
  ∧ wallets (snd (repository.DeductBalance (env_at (10 * day) 100 accept_all) 1 60 (shop 50)))
    = [mkWallet 1 50]
  ∧ wallet_of 2 (shop 50) = None
  ∧ fst (repository.DeductBalance (env_at (10 * day) 100 accept_all) 2 60 (shop 50)) = None
  ∧ wallets (snd (repository.DeductBalance (env_at (10 * day) 100 accept_all) 2 60 (shop 50)))
    = [mkWallet 1 50]
  ∧ (∃ resp, fst (usecase.CreateBooking (env_at (10 * day) 100 accept_all) 1
                    (nine_to_eleven "TEN") bank) = Ok resp)
  ∧ wallets (snd (usecase.CreateBooking (env_at (10 * day) 100 accept_all) 1
                    (nine_to_eleven "TEN") bank)) = [mkWallet 1 50].
Proof. repeat split; try eexists; vm_compute; done. Qed.

(** ** Settlement of a booking *)

(** On numbers, [x < y] failing means [y <= x]. *)
Lemma ltb_false_leb (x y : float) :
  is_number x → is_number y → (x <? y)%float = false → (y <=? x)%float = true.
Proof.
  unfold is_number.
  rewrite !FloatAxioms.eqb_spec, FloatAxioms.ltb_spec, FloatAxioms.leb_spec.
  unfold SFeqb, SFltb, SFleb.
  destruct (Prim2SF x) as [sx|sx| |sx mx ex], (Prim2SF y) as [sy|sy| |sy my ey];
    simpl; try done.
  all: try (by destruct sx); try (by destruct sy); try (by destruct sx, sy).
  intros _ _.
  change (PosDef.Pos.compare_cont Eq mx my) with (mx ?= my)%positive.
  change (PosDef.Pos.compare_cont Eq my mx) with (my ?= mx)%positive.
  rewrite (Z.compare_antisym ex ey), (Pos.compare_antisym mx my).
  destruct sx, sy; try done; destruct (ex ?= ey); simpl; try done;
    by destruct (mx ?= my)%positive.
Qed.

Lemma wallet_of_debit (userID : UUID) (amount : float) (w : World) (wallet : Wallet) :
  wallet_of userID w = Some wallet →
  (amount <=? w_Balance wallet)%float = true →
  find (λ row, Z.eqb (w_UserID row) userID)
    (repository.Update
       (λ row, Z.eqb (w_UserID row) userID && (amount <=? w_Balance row)%float)
       (λ row, mkWallet (w_UserID row) (w_Balance row - amount)%float) (wallets w))
  = Some (mkWallet (w_UserID wallet) (w_Balance wallet - amount)%float).
Proof.
  unfold wallet_of. intros Hw Hle.
  rewrite find_Update by done. rewrite Hw. simpl.
  apply find_some in Hw as [_ ->]. by rewrite Hle.
Qed.

Lemma wallet_of_credit (userID : UUID) (amount : float) (w : World) (wallet : Wallet) :
  wallet_of userID w = Some wallet →
  find (λ row, Z.eqb (w_UserID row) userID)
    (repository.Update (λ row, Z.eqb (w_UserID row) userID)
       (λ row, mkWallet (w_UserID row) (w_Balance row + amount)%float) (wallets w))
  = Some (mkWallet (w_UserID wallet) (w_Balance wallet + amount)%float).
Proof.
  unfold wallet_of. intros Hw.
  rewrite find_Update by done. rewrite Hw. simpl.
  by apply find_some in Hw as [_ ->].
Qed.

(** C5 as stated fails on two successful calls.  In the first the
    store rejects the insert into the ledger: [CreateBooking] logs it
    and still returns the booking of price 18.0, the wallet is debited,
    and the ledger is as it was.  In the second the price of two hours
    overflows and the discount turns it into NaN, which passes the
    balance check ([50 < NaN] is false) and fails the guard of the
    debit: the booking is returned and the balance stays at 50.0. *)
Lemma CreateBooking_success_without_settlement :
  ((∃ resp, fst (usecase.CreateBooking (env_at (10 * day) 100 reject_ledger) 1
                   (nine_to_eleven "TEN") (shop 50)) = Ok resp
            ∧ br_TotalPrice resp = 18%float)
   ∧ balance_of 1 (snd (usecase.CreateBooking (env_at (10 * day) 100 reject_ledger) 1
                          (nine_to_eleven "TEN") (shop 50))) = Some 32%float
   ∧ transactions (shop 50) = []
   ∧ transactions (snd (usecase.CreateBooking (env_at (10 * day) 100 reject_ledger) 1
                          (nine_to_eleven "TEN") (shop 50))) = [])
  ∧ ((∃ resp, fst (usecase.CreateBooking (env_at (10 * day) 100 accept_all) 1
                     (nine_to_eleven "TEN") bank) = Ok resp
              ∧ br_TotalPrice resp = nan)
     ∧ balance_of 1 bank = Some 50%float
     ∧ balance_of 1 (snd (usecase.CreateBooking (env_at (10 * day) 100 accept_all) 1
                            (nine_to_eleven "TEN") bank)) = Some 50%float).
Proof. split; (split; [eexists|]); vm_compute; done. Qed.

(** C5, amended.  When [CreateBooking] returns a booking of final price
    [P], the customer has a wallet; if its balance and [P] are numbers,
    the balance afterwards is exactly the balance before minus [P]; and
    if the ledger takes the insert, exactly one transaction is appended,
    with service 1, amount [P], status "completed" and the identifier of
    the new booking as its reference; otherwise the ledger is as
    before. *)
Theorem CreateBooking_settlement
    (env : Env) (customerID : UUID) (req : request.CreateBooking)
    (w w' : World) (resp : BookingResponse) :
  usecase.CreateBooking env customerID req w = (Ok resp, w') →
  ∃ wallet,
    wallet_of customerID w = Some wallet
    ∧ (is_number (w_Balance wallet) → is_number (br_TotalPrice resp) →
       balance_of customerID w'
       = Some (w_Balance wallet - br_TotalPrice resp)%float)
    ∧ (ledger_accepts env w →
       transactions w' = transactions w ++
         [mkTransaction (new_transaction_id env) customerID 1 (br_ID resp)
                        (br_TotalPrice resp) (now_paid env) "completed"])
    ∧ (¬ ledger_accepts env w → transactions w' = transactions w).
Proof.
  unfold usecase.CreateBooking, usecase.CreateBooking_settle, ledger_accepts.
  unfold_calls. run.
  all: intros [= <- <-]; unfold balance_of, wallet_of; proj;
    cbn [t_ID b_ID br_ID br_TotalPrice] in *.
  all: match goal with
       | H : find _ (wallets _) = Some ?a |- _ => exists a; split; [exact H|]
       end.
  all: split; [intros Hb Hp;
               erewrite wallet_of_debit; [reflexivity|eassumption|by apply ltb_false_leb]|].
  all: split; [intros [? ?]; try congruence; reflexivity
              |intros Hn; try reflexivity; by destruct Hn].
Qed.

Lemma CreateBooking_settlement_witness :
  balance_of 1 (shop 50) = Some 50%float
  ∧ balance_of 1 booked = Some 32%float
  ∧ transactions booked = [mkTransaction 101 1 1 100 18 (10 * day) "completed"].
Proof.
  destruct (CreateBooking_settlement (env_at (10 * day) 100 accept_all) 1
              (nine_to_eleven "TEN") (shop 50) booked booked_response)
    as (wallet & Hw & Hbal & Hled & _).
  - vm_compute. reflexivity.
  - assert (wallet = mkWallet 1 50) as -> by (vm_compute in Hw; congruence).
    split; [reflexivity|]. split.
    + rewrite Hbal; [reflexivity| reflexivity | reflexivity].
    + rewrite Hled; [reflexivity | split; reflexivity].
Defined.

(** ** Prices *)

(** C8 (price and discount computation).  The price of a stored booking
    is the room's price per hour times the hours of the interval, the
    hours being a [float64] with its fraction; with a voucher of [d]
    percent it is that base price minus base price times [d] over 100.
    [ApplyVoucher] computes the same discount of an amount and its rest,
    and writes nothing.  Two hours of a room at 10.0 cost 20.0, the 10%
    voucher brings that to 18.0, and the wallet goes from 50.0 to 32.0;
    20% of 100.0 is 20.0 and leaves 80.0. *)
Theorem price_computation :
  (∀ env customerID req w w' resp,
     usecase.CreateBooking env customerID req w = (Ok resp, w') →
     ∃ room,
       room_with (MeetingRoomID req) w = Some room
       ∧ let durationHours := time.Hours (time.Sub (EndTime req) (StartTime req)) in
         let basePrice := (r_PricePerHour room * durationHours)%float in
         (VoucherCode req = "" → br_TotalPrice resp = basePrice)
         ∧ (VoucherCode req ≠ "" →
            ∃ voucher,
              voucher_with (VoucherCode req) w = Some voucher
              ∧ br_TotalPrice resp
                = (basePrice
                   - basePrice * float64 (v_DiscountPercent voucher) / 100)%float))
  ∧ (∀ env req w w' calc,
       usecase.ApplyVoucher env req w = (Ok calc, w') →
       ∃ voucher,
         voucher_with (av_VoucherCode req) w = Some voucher
         ∧ DiscountAmount calc
           = (av_Amount req * float64 (v_DiscountPercent voucher) / 100)%float
         ∧ FinalAmount calc = (av_Amount req - DiscountAmount calc)%float
         ∧ tables w' = tables w)
  ∧ time.Hours (time.Sub (11 * day + 11 * time.Hour) (11 * day + 9 * time.Hour)) = 2%float
  ∧ time.Hours (time.Sub (11 * day + 11 * time.Hour + 30 * time.Minute)
                         (11 * day + 9 * time.Hour)) = 2.5%float
  ∧ usecase.basePrice (mkMeetingRoom 7 "Blue room" 10 true) (nine_to_eleven "TEN") = 20%float
  ∧ fst (usecase.CreateBooking (env_at (10 * day) 100 accept_all) 1
           (nine_to_eleven "TEN") (shop 50)) = Ok booked_response
  ∧ br_TotalPrice booked_response = 18%float
  ∧ balance_of 1 (shop 50) = Some 50%float
  ∧ balance_of 1 booked = Some 32%float
  ∧ fst (usecase.ApplyVoucher (env_at (10 * day) 100 accept_all)
           (mkApplyVoucher "TWENTY" 100) (shop 50))
    = Ok (mkVoucherCalculation 100 20 80 20 "TWENTY").
Proof.
  split; [|split]; [| |repeat (split; [vm_compute; reflexivity|]); vm_compute; reflexivity].
  - intros env customerID req w w' resp.
    unfold usecase.CreateBooking, usecase.CreateBooking_settle,
      usecase.basePrice, usecase.discounted.
    unfold_calls. run.
    all: intros [= <- <-]; unfold room_with, voucher_with; proj;
      cbn [br_TotalPrice b_TotalPrice] in *.
    all: match goal with
         | H : find _ (meeting_rooms _) = Some ?a |- _ => exists a; split; [exact H|]
         end.
    all: match goal with
         | H : negb (String.eqb (VoucherCode _) "") = true |- _ =>
           apply negb_true_iff, String.eqb_neq in H
         | H : negb (String.eqb (VoucherCode _) "") = false |- _ =>
           apply negb_false_iff, String.eqb_eq in H
         end.
    all: split; [intros He|intros Hne]; try done.
    all: eexists; split; [eassumption|reflexivity].
  - intros env req w w' calc. unfold usecase.ApplyVoucher. unfold_calls. run.
    all: intros [= <- <-]; unfold voucher_with; proj;
      cbn [DiscountAmount FinalAmount] in *.
    eexists; split; [eassumption|done].
Qed.

Lemma price_computation_witness :
  ∃ room,
    room_with 7 (shop 50) = Some room
    ∧ ∃ voucher,
        voucher_with "TEN" (shop 50) = Some voucher
        ∧ br_TotalPrice booked_response
          = (r_PricePerHour room * 2
             - r_PricePerHour room * 2 * float64 (v_DiscountPercent voucher) / 100)%float.
Proof.
  destruct (proj1 price_computation (env_at (10 * day) 100 accept_all) 1
              (nine_to_eleven "TEN") (shop 50) booked booked_response)
    as (room & Hroom & _ & Hv).
  - vm_compute. reflexivity.
  - exists room. split; [exact Hroom|]. apply Hv. discriminate.
Defined.

(** ** Who has a wallet *)





(** The wallet table after each use case that writes to it. *)
Lemma CreateBooking_wallets
    (env : Env) (customerID : UUID) (req : request.CreateBooking) (w : World) :
  ∃ cond set,
    (∀ row, w_UserID (set row) = w_UserID row)
    ∧ wallets (snd (usecase.CreateBooking env customerID req w))
      = repository.Update cond set (wallets w).
Proof.
  unfold usecase.CreateBooking, usecase.CreateBooking_settle. unfold_calls. run.
  all: try (exists (λ _, false), id; split; [done|];
            unfold repository.Update; by rewrite list_fmap_id).
  all: eexists _, _; split; [|reflexivity]; done.
Qed.

Lemma CancelBooking_wallets (env : Env) (customerID bookingID : UUID) (w : World) :
  ∃ cond set,
    (∀ row, w_UserID (set row) = w_UserID row)
    ∧ wallets (snd (usecase.CancelBooking env customerID bookingID w))
      = repository.Update cond set (wallets w).
Proof.
  unfold usecase.CancelBooking. unfold_calls. run.
  all: try (exists (λ _, false), id; split; [done|];
            unfold repository.Update; by rewrite list_fmap_id).
  all: eexists _, _; split; [|reflexivity]; done.
Qed.

Lemma ConfirmTopup_wallets (env : Env) (req : request.ConfirmTopup) (w : World) :
  ∃ cond set,
    (∀ row, w_UserID (set row) = w_UserID row)
    ∧ wallets (snd (usecase.ConfirmTopup env req w))
      = repository.Update cond set (wallets w).
Proof.
  unfold usecase.ConfirmTopup. unfold_calls. run.
  all: try (exists (λ _, false), id; split; [done|];
            unfold repository.Update; by rewrite list_fmap_id).
  all: eexists _, _; split; [|reflexivity]; done.
Qed.



(** ** Cancellation *)


Lemma find_Update_key {A} (key : A → bool) (set : A → A) (table : list A) (row : A) :
  (∀ row, key (set row) = key row) →
  find key table = Some row →
  find key (repository.Update key set table) = Some (set row).
Proof.
  intros Hkey Hrow. rewrite find_Update by done. rewrite Hrow. simpl.
  by apply find_some in Hrow as [_ ->].
Qed.





(** ** Top-up confirmation *)


Lemma ConfirmTopup_not_pending (env : Env) (req : request.ConfirmTopup) (w : World)
    (topup : Topup) :
  topup_with (TopupID req) w = Some topup → p_Status topup ≠ "pending" →
  fst (usecase.ConfirmTopup env req w) = Some NotPending
  ∧ tables (snd (usecase.ConfirmTopup env req w)) = tables w.
Proof.
  unfold usecase.ConfirmTopup, topup_with. unfold_calls. cbn beta iota zeta. proj.
  intros -> Hst. apply String.eqb_neq in Hst. by rewrite Hst.
Qed.

Lemma ConfirmTopup_again_not_pending (envs : list Env) (req : request.ConfirmTopup)
    (w : World) (topup : Topup) :
  topup_with (TopupID req) w = Some topup → p_Status topup ≠ "pending" →
  Forall (λ err, err = Some NotPending) (fst (ConfirmTopup_again envs req w))
  ∧ tables (snd (ConfirmTopup_again envs req w)) = tables w.
Proof.
  revert w. induction envs as [|env envs IH]; intros w Hw Hst; simpl.
  - by split.
  - destruct (ConfirmTopup_not_pending env req w topup Hw Hst) as [Herr Htab].
    destruct (usecase.ConfirmTopup env req w) as [err w1]. simpl in Herr, Htab.
    destruct (IH w1) as [Herrs Htabs].
    + unfold topup_with in *. by injection Htab as _ _ _ _ -> _.
    + done.
    + destruct (ConfirmTopup_again envs req w1) as [errs w2]. simpl in *.
      split; [by constructor | congruence].
Qed.




(** ** A credit that fails *)

(** C10 (partial failure of a confirmation).  The top-up is pending and
    the store takes the status update but rejects the credit:
    [ConfirmTopup] fails with the error of the credit, the top-up is
    completed all the same, the wallets and the ledger are untouched,
    and every later call on that top-up, in whatever environment, fails
    with [NotPending] and leaves wallets and ledger as they were. *)
Theorem ConfirmTopup_credit_failure
    (env : Env) (req : request.ConfirmTopup) (w : World) (topup : Topup) :
  topup_with (TopupID req) w = Some topup →
  p_Status topup = "pending" →
  rejects env UpdateTopupStatusSt = false →
  rejects env UpdateWalletCredit = true →
  let r := usecase.ConfirmTopup env req w in
  fst r = Some CreditFailed
  ∧ topup_with (TopupID req) (snd r) = Some (repository.set_p_Status "completed" topup)
  ∧ wallets (snd r) = wallets w
  ∧ transactions (snd r) = transactions w
  ∧ ∀ envs,
      Forall (λ err, err = Some NotPending) (fst (ConfirmTopup_again envs req (snd r)))
      ∧ wallets (snd (ConfirmTopup_again envs req (snd r))) = wallets w
      ∧ transactions (snd (ConfirmTopup_again envs req (snd r))) = transactions w.
Proof.
  intros Htopup Hpending Hst Hcredit r.
  assert (Hr : fst r = Some CreditFailed
               ∧ topup_with (TopupID req) (snd r)
                 = Some (repository.set_p_Status "completed" topup)
               ∧ wallets (snd r) = wallets w
               ∧ transactions (snd r) = transactions w).
  { subst r. revert Htopup.
    unfold usecase.ConfirmTopup, topup_with. unfold_calls. cbn beta iota zeta. proj.
    intros Hfind. rewrite Hfind, Hpending, Hst, Hcredit. simpl String.eqb. cbn [negb]. proj.
    repeat split. by apply find_Update_key. }
  destruct Hr as (Herr & Hdone & Hwal & Htx). repeat split; try done.
  all: destruct (ConfirmTopup_again_not_pending envs req (snd r) _ Hdone) as [Herrs Htab];
    [done|]; try done.
  all: injection Htab as _ _ _ Hw _ Ht; congruence.
Qed.

Lemma ConfirmTopup_credit_failure_witness :
  let r := usecase.ConfirmTopup (env_at (10 * day) 300 reject_credit) (mkConfirmTopup 9)
             topup_pending in
  fst r = Some CreditFailed
  ∧ topup_with 9 (snd r) = Some (repository.set_p_Status "completed" pending_row)
  ∧ wallets (snd r) = wallets topup_pending
  ∧ transactions (snd r) = transactions topup_pending
  ∧ ∀ envs,
      Forall (λ err, err = Some NotPending)
             (fst (ConfirmTopup_again envs (mkConfirmTopup 9) (snd r)))
      ∧ wallets (snd (ConfirmTopup_again envs (mkConfirmTopup 9) (snd r)))
        = wallets topup_pending
      ∧ transactions (snd (ConfirmTopup_again envs (mkConfirmTopup 9) (snd r)))
        = transactions topup_pending.
Proof.
  apply (ConfirmTopup_credit_failure (env_at (10 * day) 300 reject_credit)
           (mkConfirmTopup 9) topup_pending pending_row); reflexivity.
Defined.


(** * Further properties *)

(** ** Running the other use cases *)

Ltac unfold_more :=
  unfold repository.GetBookingsByCustomer, repository.GetBookingsByMeetingRoom,
    repository.GetTopupsByUser, repository.GetTransactionsByUser,
    repository.GetTransactionsByService, repository.GetVoucherByID,
    repository.GetAllVouchers, repository.GetValidVouchers,
    repository.UpdateRoomAvailability, repository.CreateTopup,
    repository.CreateVoucher, repository.UpdateVoucher, repository.DeleteVoucher,
    repository.ExecW, repository.CreateW, usecase.room_name in *;
  unfold_calls.

Ltac proj_more :=
  cbn [fst snd meeting_rooms bookings vouchers wallets topups transactions logs
       set_logs set_vouchers set_wallets set_transactions set_bookings set_topups
       set_meeting_rooms tables] in *.

Ltac run_more := cbn beta iota zeta; proj_more; repeat (branch; proj_more).

(** ** Lookups in a table that grew or changed *)

Lemma find_snoc_fresh {A} (key : A → bool) (table : list A) (row : A) :
  existsb key table = false →
  find key (table ++ [row]) = if key row then Some row else None.
Proof.
  induction table as [|x table IH]; simpl; [done|].
  destruct (key x); simpl; [done|exact IH].
Qed.

(** ** What a successful call has done *)

(** What a successful [CreateBooking] has found and done. *)
Lemma CreateBooking_Ok
    (env : Env) (customerID : UUID) (req : request.CreateBooking)
    (w w' : World) (resp : BookingResponse) :
  usecase.CreateBooking env customerID req w = (Ok resp, w') →
  ∃ room wallet booking,
    room_with (MeetingRoomID req) w = Some room
    ∧ r_Available room = true
    ∧ StartTime req < EndTime req
    ∧ (repository.Count
         (repository.conflicts (MeetingRoomID req) (StartTime req) (EndTime req))
         (bookings w) =? 0) = true
    ∧ wallet_of customerID w = Some wallet
    ∧ (w_Balance wallet <? b_TotalPrice booking)%float = false
    ∧ booking = mkBooking (new_booking_id env) customerID (MeetingRoomID req)
                  (StartTime req) (EndTime req) (br_TotalPrice resp)
                  (br_VoucherID resp) "booked" (now_created env)
    ∧ resp = usecase.booking_response booking (r_Name room)
    ∧ existsb (λ row, b_ID row =? new_booking_id env) (bookings w) = false
    ∧ bookings w' = bookings w ++ [booking]
    ∧ meeting_rooms w' = meeting_rooms w
    ∧ topups w' = topups w
    ∧ wallets w'
      = repository.Update
          (λ row, (w_UserID row =? customerID)
                  && (b_TotalPrice booking <=? w_Balance row)%float)
          (λ row, mkWallet (w_UserID row) (w_Balance row - b_TotalPrice booking)%float)
          (wallets w)
    ∧ transactions w'
      = (if negb (rejects env InsertTransaction)
            && negb (existsb (λ row, t_ID row =? new_transaction_id env) (transactions w))
         then transactions w ++
                [mkTransaction (new_transaction_id env) customerID 1 (b_ID booking)
                               (b_TotalPrice booking) (now_paid env) "completed"]
         else transactions w).
Proof.
  intros Hrun. pattern resp, w'.
  match goal with |- ?P resp w' => set (Q := P) end.
  revert Hrun. unfold usecase.CreateBooking, usecase.CreateBooking_settle.
  unfold_calls. run.
  all: intros [= <- <-]; subst Q; cbv beta; unfold room_with, wallet_of; proj;
    cbn [t_ID b_ID br_ID br_TotalPrice br_VoucherID b_TotalPrice] in *.
  all: match goal with
       | Hr : find _ (meeting_rooms _) = Some ?r, Hw : find _ (wallets _) = Some ?a
         |- _ => exists r, a
       end.
  all: eexists; repeat split; try eassumption; try reflexivity.
  all: try (by apply negb_false_iff); try (by eapply valid_time_range).
  all: repeat match goal with H : _ = _ |- _ => rewrite H end; reflexivity.
Qed.

(** What a successful [CancelBooking] has found and done. *)
Lemma CancelBooking_None (env : Env) (customerID bookingID : UUID) (w w' : World) :
  usecase.CancelBooking env customerID bookingID w = (None, w') →
  ∃ booking,
    booking_with bookingID w = Some booking
    ∧ b_CustomerID booking = customerID
    ∧ ¬ cancelled booking
    ∧ bookings w'
      = repository.Update (λ row, b_ID row =? bookingID)
          (repository.set_b_Status "cancelled") (bookings w)
    ∧ wallets w'
      = repository.Update (λ row, w_UserID row =? customerID)
          (λ row, mkWallet (w_UserID row) (w_Balance row + b_TotalPrice booking)%float)
          (wallets w)
    ∧ meeting_rooms w' = meeting_rooms w
    ∧ vouchers w' = vouchers w
    ∧ topups w' = topups w
    ∧ transactions w'
      = (if negb (rejects env InsertTransaction)
            && negb (existsb (λ row, t_ID row =? new_transaction_id env) (transactions w))
         then transactions w ++
                [mkTransaction (new_transaction_id env) customerID 1 (b_ID booking)
                               (- b_TotalPrice booking)%float (now_paid env) "refunded"]
         else transactions w).
Proof.
  intros Hrun. pattern w'.
  match goal with |- ?P w' => set (Q := P) end.
  revert Hrun. unfold usecase.CancelBooking. unfold_calls. run.
  all: intros [= <-]; subst Q; cbv beta; unfold booking_with; proj; cbn [t_ID] in *.
  all: match goal with
       | Hb : find _ (bookings _) = Some ?b |- _ => exists b
       end.
  all: repeat split; try eassumption; try reflexivity.
  all: try (by apply Z.eqb_eq, negb_false_iff).
  all: try (by apply String.eqb_neq).
  all: repeat match goal with H : _ = _ |- _ => rewrite H end; reflexivity.
Qed.

(** ** The listings of bookings *)

Lemma mbind_run {A B} (m : M A) (k : A → M B) (w : World) :
  (m ≫= k) w = k (fst (m w)) (snd (m w)).
Proof. unfold mbind, M_bind. by destruct (m w). Qed.

Lemma room_name_run (id : UUID) (w : World) :
  fst (usecase.room_name id w) = room_name_of id w
  ∧ tables (snd (usecase.room_name id w)) = tables w.
Proof.
  unfold room_name_of, room_with. unfold_more. cbn beta iota zeta. proj_more.
  by destruct (find _ (meeting_rooms w)).
Qed.

Lemma for_range_room_names (rows : list Booking) (w : World) :
  fst (usecase.for_range
         (λ booking,
            roomName ← usecase.room_name (b_MeetingRoomID booking);
            mret (usecase.booking_response booking roomName)) rows w)
  = (λ booking,
       usecase.booking_response booking (room_name_of (b_MeetingRoomID booking) w))
    <$> rows
  ∧ tables (snd (usecase.for_range
                   (λ booking,
                      roomName ← usecase.room_name (b_MeetingRoomID booking);
                      mret (usecase.booking_response booking roomName)) rows w))
    = tables w.
Proof.
  revert w. induction rows as [|row rows IH]; intros w; [done|].
  cbn [usecase.for_range]. rewrite !mbind_run.
  unfold mret, M_ret. cbn [fst snd].
  destruct (room_name_run (b_MeetingRoomID row) w) as [Hname Htab].
  destruct (IH (snd (usecase.room_name (b_MeetingRoomID row) w))) as [Hrest Htab'].
  unfold mret, M_ret in Hrest, Htab'.
  rewrite Hrest, Htab', Htab, Hname. split; [|done].
  cbn [fmap list_fmap]. by f_equal.
Qed.

Lemma for_range_pure {A B} (f : A → B) (rows : list A) (w : World) :
  usecase.for_range (λ row, mret (f row)) rows w = (f <$> rows, w).
Proof.
  induction rows as [|row rows IH]; [done|].
  cbn [usecase.for_range]. unfold mbind, M_bind, mret, M_ret in *.
  by rewrite IH.
Qed.

(** What the two listings compute. *)
Lemma GetCustomerBookings_run (customerID : UUID) (w : World) :
  fst (usecase.GetCustomerBookings customerID w)
  = Ok ((λ booking,
           usecase.booking_response booking (room_name_of (b_MeetingRoomID booking) w))
        <$> repository.Order repository.created_at_desc
              (repository.Find (λ row, b_CustomerID row =? customerID) (bookings w)))
  ∧ tables (snd (usecase.GetCustomerBookings customerID w)) = tables w.
Proof.
  unfold usecase.GetCustomerBookings, repository.GetBookingsByCustomer.
  rewrite !mbind_run. unfold logger.Info, gets, modify.
  cbn beta iota zeta. proj_more. rewrite !mbind_run.
  match goal with
  | |- context [usecase.for_range _ ?rows ?w1] =>
    destruct (for_range_room_names rows w1) as [Hres Htab]
  end.
  split; [exact (f_equal Ok Hres)|exact Htab].
Qed.

Lemma GetRoomBookings_run (roomID : UUID) (w : World) :
  fst (usecase.GetRoomBookings roomID w)
  = Ok ((λ booking, usecase.booking_response booking "")
        <$> repository.Order repository.start_time_asc
              (repository.Find (λ row, b_MeetingRoomID row =? roomID) (bookings w)))
  ∧ tables (snd (usecase.GetRoomBookings roomID w)) = tables w.
Proof.
  unfold usecase.GetRoomBookings, repository.GetBookingsByMeetingRoom.
  rewrite !mbind_run. unfold logger.Info, gets, modify.
  cbn beta iota zeta. proj_more. rewrite !mbind_run, for_range_pure. done.
Qed.

Global Instance start_time_asc_total : Total repository.start_time_asc.
Proof. intros a b. unfold repository.start_time_asc. lia. Qed.
Global Instance created_at_desc_total : Total repository.created_at_desc.
Proof. intros a b. unfold repository.created_at_desc. lia. Qed.
Global Instance topup_created_at_desc_total : Total repository.topup_created_at_desc.
Proof. intros a b. unfold repository.topup_created_at_desc. lia. Qed.
Global Instance paid_at_desc_total : Total repository.paid_at_desc.
Proof. intros a b. unfold repository.paid_at_desc. lia. Qed.

(** X1 (the bookings of a room).  [GetRoomBookings] answers with the
    bookings of the room, all of them and no other, the cancelled ones
    too, in the order of their start times; the answers carry no room
    name; and the call writes to no table. *)
Theorem GetRoomBookings_lists_room (roomID : UUID) (w : World) :
  ∃ rows,
    fst (usecase.GetRoomBookings roomID w)
    = Ok ((λ booking, usecase.booking_response booking "") <$> rows)
    ∧ rows ≡ₚ List.filter (λ row, b_MeetingRoomID row =? roomID) (bookings w)
    ∧ Sorted (λ a b, b_StartTime a <= b_StartTime b) rows
    ∧ tables (snd (usecase.GetRoomBookings roomID w)) = tables w.
Proof.
  destruct (GetRoomBookings_run roomID w) as [Hres Htab].
  eexists. split; [exact Hres|]. split; [|split; [|exact Htab]].
  - apply merge_sort_Permutation.
  - apply (Sorted_merge_sort repository.start_time_asc).
Qed.

(** X2 (the bookings of a customer).  [GetCustomerBookings] answers
    with the bookings of the customer, all of them and no other, the
    newest first, each with the name of its room as the store has it
    now, empty where the room is gone; and the call writes to no
    table. *)
Theorem GetCustomerBookings_lists_customer (customerID : UUID) (w : World) :
  ∃ rows,
    fst (usecase.GetCustomerBookings customerID w)
    = Ok ((λ booking,
             usecase.booking_response booking
               (room_name_of (b_MeetingRoomID booking) w)) <$> rows)
    ∧ rows ≡ₚ List.filter (λ row, b_CustomerID row =? customerID) (bookings w)
    ∧ Sorted (λ a b, b_CreatedAt b <= b_CreatedAt a) rows
    ∧ tables (snd (usecase.GetCustomerBookings customerID w)) = tables w.
Proof.
  destruct (GetCustomerBookings_run customerID w) as [Hres Htab].
  eexists. split; [exact Hres|]. split; [|split; [|exact Htab]].
  - apply merge_sort_Permutation.
  - apply (Sorted_merge_sort repository.created_at_desc).
Qed.

(** ** Reading a booking back *)

Lemma GetBooking_run (bookingID : UUID) (w : World) :
  fst (usecase.GetBooking bookingID w)
  = match booking_with bookingID w with
    | Some booking =>
      Ok (usecase.booking_response booking (room_name_of (b_MeetingRoomID booking) w))
    | None => Err BookingNotFound
    end
  ∧ tables (snd (usecase.GetBooking bookingID w)) = tables w.
Proof.
  unfold usecase.GetBooking, repository.GetBookingByID, booking_with.
  rewrite !mbind_run. unfold logger.Info, gets, modify, repository.First.
  cbn beta iota zeta. proj_more.
  destruct (find _ (bookings w)) as [booking|]; [|done].
  rewrite mbind_run.
  match goal with
  | |- context [usecase.room_name ?id ?w1] =>
    destruct (room_name_run id w1) as [Hname Htab]
  end.
  split; [|exact Htab].
  unfold mret, M_ret. cbn [fst]. by rewrite Hname.
Qed.

Lemma Update_app {A} (cond : A → bool) (set : A → A) (t1 t2 : list A) :
  repository.Update cond set (t1 ++ t2)
  = repository.Update cond set t1 ++ repository.Update cond set t2.
Proof. unfold repository.Update. apply fmap_app. Qed.

(** X3 (a booking is read back).  When [CreateBooking] returns a
    booking, [GetBooking] on its identifier returns that very answer,
    field by field, and [GetCustomerBookings] of the customer lists
    it. *)
Theorem GetBooking_after_CreateBooking
    (env : Env) (customerID : UUID) (req : request.CreateBooking)
    (w w' : World) (resp : BookingResponse) :
  usecase.CreateBooking env customerID req w = (Ok resp, w') →
  fst (usecase.GetBooking (br_ID resp) w') = Ok resp
  ∧ ∃ resps,
      fst (usecase.GetCustomerBookings customerID w') = Ok resps ∧ resp ∈ resps.
Proof.
  intros Hrun.
  destruct (CreateBooking_Ok _ _ _ _ _ _ Hrun)
    as (room & wallet & booking & Hroom & _ & _ & _ & _ & _ & Hb & -> & Hfresh
        & Hbs & Hrooms & _).
  assert (Hid : b_ID booking = new_booking_id env) by (by rewrite Hb).
  assert (Hrm : b_MeetingRoomID booking = MeetingRoomID req) by (by rewrite Hb).
  assert (Hcu : b_CustomerID booking = customerID) by (by rewrite Hb).
  assert (Hname : room_name_of (b_MeetingRoomID booking) w' = r_Name room).
  { unfold room_name_of, room_with in *. by rewrite Hrooms, Hrm, Hroom. }
  assert (Hfind : booking_with (b_ID booking) w' = Some booking).
  { unfold booking_with. rewrite Hbs, Hid, find_snoc_fresh by done.
    by rewrite Hid, Z.eqb_refl. }
  split.
  - destruct (GetBooking_run (b_ID booking) w') as [Hget _].
    cbn [br_ID usecase.booking_response].
    rewrite Hget, Hfind, Hname. done.
  - destruct (GetCustomerBookings_run customerID w') as [Hget _].
    eexists. split; [exact Hget|].
    apply list_elem_of_fmap. exists booking. split; [by rewrite Hname|].
    unfold repository.Order. rewrite merge_sort_Permutation.
    unfold repository.Find. apply list_elem_of_In, filter_In. split.
    + rewrite Hbs. apply in_or_app. right. by left.
    + by rewrite Hcu, Z.eqb_refl.
Qed.

Lemma GetBooking_after_CreateBooking_witness :
  fst (usecase.GetBooking 100 booked) = Ok booked_response
  ∧ ∃ resps, fst (usecase.GetCustomerBookings 1 booked) = Ok resps
             ∧ booked_response ∈ resps.
Proof.
  apply (GetBooking_after_CreateBooking (env_at (10 * day) 100 accept_all) 1
           (nine_to_eleven "TEN") (shop 50) booked booked_response).
  vm_compute. reflexivity.
Defined.

(** X4 (booking, then cancelling).  When a booking is made and then
    cancelled, [GetBooking] shows it as it was returned but for the
    status "cancelled", the room is free again on the interval
    ([CheckRoomAvailability] answers [true]), and, the balance [b] and
    the price [P] being numbers, the wallet holds [(b - P) + P] in the
    arithmetic of [float64]. *)
Theorem CancelBooking_after_CreateBooking
    (env env' : Env) (customerID : UUID) (req : request.CreateBooking)
    (w w1 w2 : World) (resp : BookingResponse) :
  usecase.CreateBooking env customerID req w = (Ok resp, w1) →
  usecase.CancelBooking env' customerID (br_ID resp) w1 = (None, w2) →
  fst (usecase.GetBooking (br_ID resp) w2) = Ok (cancelled_response resp)
  ∧ fst (repository.CheckRoomAvailability (MeetingRoomID req) (StartTime req)
           (EndTime req) w2) = Ok true
  ∧ (∀ balance,
       balance_of customerID w = Some balance →
       is_number balance → is_number (br_TotalPrice resp) →
       balance_of customerID w2
       = Some (balance - br_TotalPrice resp + br_TotalPrice resp)%float).
Proof.
  intros Hbook Hcancel.
  destruct (CreateBooking_Ok _ _ _ _ _ _ Hbook)
    as (room & wallet & booking & Hroom & _ & _ & Hfree & Hwallet & Hlt & Hb & ->
        & Hfresh & Hbs & Hrooms & _ & Hws & _).
  assert (Hid : b_ID booking = new_booking_id env) by (by rewrite Hb).
  assert (Hrm : b_MeetingRoomID booking = MeetingRoomID req) by (by rewrite Hb).
  clear Hb. cbn [br_ID br_TotalPrice usecase.booking_response] in *.
  destruct (CancelBooking_None _ _ _ _ _ Hcancel)
    as (booking' & Hfind & _ & _ & Hbs' & Hws' & Hrooms' & _).
  assert (booking' = booking) as ->.
  { unfold booking_with in Hfind. rewrite Hbs, Hid, find_snoc_fresh in Hfind by done.
    rewrite Hid, Z.eqb_refl in Hfind. congruence. }
  assert (Hbs2 : bookings w2
                 = bookings w ++ [repository.set_b_Status "cancelled" booking]).
  { rewrite Hbs', Hbs, Update_app, Hid, Update_unmatched by done.
    unfold repository.Update. cbn [fmap list_fmap]. by rewrite Hid, Z.eqb_refl. }
  split; [|split].
  - destruct (GetBooking_run (b_ID booking) w2) as [Hget _].
    rewrite Hget. unfold booking_with.
    rewrite Hbs2, Hid, find_snoc_fresh by done.
    cbn [repository.set_b_Status b_ID]. rewrite Hid, Z.eqb_refl.
    unfold room_name_of, room_with in *. cbn [repository.set_b_Status b_MeetingRoomID].
    by rewrite Hrooms', Hrooms, Hrm, Hroom.
  - unfold repository.CheckRoomAvailability, logger.Info, gets, modify.
    rewrite mbind_run. cbn [fst snd]. proj_more. f_equal.
    rewrite Hbs2. apply Count_zero, Forall_app. split.
    + by apply Count_zero.
    + constructor; [|constructor]. unfold repository.conflicts.
      cbn [repository.set_b_Status b_Status]. simpl String.eqb.
      by rewrite andb_false_r.
  - intros balance Hbal Hn Hp. unfold balance_of in *. rewrite Hwallet in Hbal.
    injection Hbal as <-.
    pose (w1' := mkWorld [] [] [] (wallets w1) [] [] []).
    assert (Hw1 : wallet_of customerID w1'
                  = Some (mkWallet (w_UserID wallet)
                                   (w_Balance wallet - b_TotalPrice booking)%float)).
    { unfold wallet_of, w1'. cbn [wallets]. rewrite Hws.
      apply wallet_of_debit; [done|]. by apply ltb_false_leb. }
    unfold wallet_of. rewrite Hws'.
    change (wallets w1) with (wallets w1').
    erewrite wallet_of_credit by exact Hw1. done.
Qed.

Lemma CancelBooking_after_CreateBooking_witness :
  fst (usecase.GetBooking 100
         (snd (usecase.CancelBooking (env_at (10 * day) 300 accept_all) 1 100 booked)))
  = Ok (cancelled_response booked_response)
  ∧ fst (repository.CheckRoomAvailability 7 (11 * day + 9 * time.Hour)
           (11 * day + 11 * time.Hour)
           (snd (usecase.CancelBooking (env_at (10 * day) 300 accept_all) 1 100 booked)))
    = Ok true
  ∧ balance_of 1
      (snd (usecase.CancelBooking (env_at (10 * day) 300 accept_all) 1 100 booked))
    = Some 50%float.
Proof.
  destruct (CancelBooking_after_CreateBooking
              (env_at (10 * day) 100 accept_all) (env_at (10 * day) 300 accept_all) 1
              (nine_to_eleven "TEN") (shop 50) booked
              (snd (usecase.CancelBooking (env_at (10 * day) 300 accept_all) 1 100 booked))
              booked_response) as (Hget & Hfree & Hbal).
  - vm_compute. reflexivity.
  - vm_compute. reflexivity.
  - split; [exact Hget|]. split; [exact Hfree|].
    rewrite (Hbal 50%float); reflexivity.
Defined.

(** ** Requests that are refused before anything is written *)

(** X5 (an occupied slot).  When a booking of the room that is not
    cancelled overlaps the requested interval, [CreateBooking] fails,
    with [SlotConflict] unless an earlier check fails first, and writes
    to no table: no voucher is used on the way. *)
Theorem CreateBooking_refuses_overlap
    (env : Env) (customerID : UUID) (req : request.CreateBooking) (w : World)
    (row : Booking) :
  row ∈ bookings w →
  b_MeetingRoomID row = MeetingRoomID req →
  ¬ cancelled row →
  overlap (b_StartTime row) (b_EndTime row) (StartTime req) (EndTime req) →
  ∃ err,
    fst (usecase.CreateBooking env customerID req w) = Err err
    ∧ err ∈ [InvalidTimeRange; PastBooking; RoomNotFound; RoomUnavailable; SlotConflict]
    ∧ tables (snd (usecase.CreateBooking env customerID req w)) = tables w.
Proof.
  intros Hin Hroom Hst [Had Hcb].
  assert (Hc : (repository.Count
                  (repository.conflicts (MeetingRoomID req) (StartTime req) (EndTime req))
                  (bookings w) =? 0) = false).
  { apply Count_nonzero, Exists_exists. exists row. split; [done|].
    unfold repository.conflicts, repository.overlap_condition.
    apply Z.eqb_eq in Hroom. rewrite Hroom.
    rewrite <- cancelled_eqb in Hst. apply not_true_is_false in Hst. rewrite Hst.
    apply Z.ltb_lt in Had, Hcb. by rewrite Had, Hcb. }
  unfold usecase.CreateBooking, usecase.CreateBooking_settle. unfold_calls. run.
  all: try match goal with
           | H : negb (repository.Count _ _ =? 0) = false |- _ =>
             rewrite Hc in H; discriminate
           | H : errors_Is _ _ = false |- _ => discriminate H
           end.
  all: eexists; split; [reflexivity|]; split; [|reflexivity].
  all: apply list_elem_of_In; simpl; auto 10.
Qed.

Lemma CreateBooking_refuses_overlap_witness :
  ∃ err,
    fst (usecase.CreateBooking (env_at (10 * day) 200 accept_all) 1
           (mkCreateBooking 7 (11 * day + 10 * time.Hour) (11 * day + 12 * time.Hour) "TEN")
           booked) = Err err
    ∧ err ∈ [InvalidTimeRange; PastBooking; RoomNotFound; RoomUnavailable; SlotConflict]
    ∧ tables (snd (usecase.CreateBooking (env_at (10 * day) 200 accept_all) 1
                     (mkCreateBooking 7 (11 * day + 10 * time.Hour)
                        (11 * day + 12 * time.Hour) "TEN") booked))
      = tables booked.
Proof.
  apply (CreateBooking_refuses_overlap (env_at (10 * day) 200 accept_all) 1
           (mkCreateBooking 7 (11 * day + 10 * time.Hour) (11 * day + 12 * time.Hour) "TEN")
           booked booked_row).
  - apply list_elem_of_In. vm_compute. by left.
  - reflexivity.
  - discriminate.
  - split; reflexivity.
Defined.

(** What [UpdateRoomAvailability] has done when it returns [nil]. *)
Lemma UpdateRoomAvailability_None
    (call : Call) (id : UUID) (available : bool) (w w1 : World) :
  repository.UpdateRoomAvailability call id available w = (None, w1) →
  meeting_rooms w1
  = repository.Update (λ row, r_ID row =? id) (repository.set_r_Available available)
      (meeting_rooms w)
  ∧ bookings w1 = bookings w ∧ vouchers w1 = vouchers w ∧ wallets w1 = wallets w
  ∧ topups w1 = topups w ∧ transactions w1 = transactions w.
Proof.
  unfold_more. run_more; intros [= <-]; done.
Qed.

(** X6 (a closed room).  After [UpdateRoomAvailability] has set a
    room to unavailable, [CreateBooking] on it fails, with
    [RoomUnavailable] unless an earlier check fails first, and writes
    nothing; closing the room has left the bookings, the wallets and
    the ledger as they were. *)
Theorem CreateBooking_after_room_closed
    (call : Call) (env : Env) (customerID : UUID) (req : request.CreateBooking)
    (w w1 : World) :
  repository.UpdateRoomAvailability call (MeetingRoomID req) false w = (None, w1) →
  (∃ err,
     fst (usecase.CreateBooking env customerID req w1) = Err err
     ∧ err ∈ [InvalidTimeRange; PastBooking; RoomNotFound; RoomUnavailable]
     ∧ tables (snd (usecase.CreateBooking env customerID req w1)) = tables w1)
  ∧ bookings w1 = bookings w
  ∧ wallets w1 = wallets w
  ∧ transactions w1 = transactions w.
Proof.
  intros Hclose.
  destruct (UpdateRoomAvailability_None _ _ _ _ _ Hclose)
    as (Hrooms & Hbs & _ & Hws & _ & Htx).
  split; [|done].
  assert (Hclosed : ∀ room,
            In room (meeting_rooms w1) → (r_ID room =? MeetingRoomID req) = true →
            r_Available room = false).
  { intros room. rewrite Hrooms. intros Hin Hkey.
    apply list_elem_of_In, list_elem_of_fmap in Hin as (room0 & -> & _).
    destruct (r_ID room0 =? MeetingRoomID req) eqn:Hkey0; [done|].
    by rewrite Hkey0 in Hkey. }
  unfold usecase.CreateBooking. unfold_calls. run.
  all: try match goal with H : errors_Is _ _ = false |- _ => discriminate H end.
  all: try match goal with
           | Hf : find _ (meeting_rooms _) = Some ?r,
             Ha : negb (r_Available ?r) = false |- _ =>
             apply find_some in Hf as [Hin Hkey];
             rewrite (Hclosed _ Hin Hkey) in Ha; discriminate Ha
           end.
  all: eexists; split; [reflexivity|]; split; [|reflexivity].
  all: apply list_elem_of_In; simpl; auto 10.
Qed.

Lemma CreateBooking_after_room_closed_witness :
  fst (usecase.CreateBooking (env_at (10 * day) 100 accept_all) 1 (nine_to_eleven "TEN")
         (snd (repository.UpdateRoomAvailability (call_at (9 * day) 0 accept_writes)
                 7 false (shop 50))))
  = Err RoomUnavailable.
Proof.
  destruct (CreateBooking_after_room_closed (call_at (9 * day) 0 accept_writes)
              (env_at (10 * day) 100 accept_all) 1 (nine_to_eleven "TEN") (shop 50)
              (snd (repository.UpdateRoomAvailability (call_at (9 * day) 0 accept_writes)
                      7 false (shop 50))))
    as [(err & Herr & _) _].
  - vm_compute. reflexivity.
  - vm_compute. reflexivity.
Defined.

(** ** Top-ups, from the request to the credit *)

(** What [CreateTopup] does, whatever it returns. *)
Lemma CreateTopup_run (call : Call) (userID : UUID) (req : request.TopupWallet) (w : World) :
  let r := usecase.CreateTopup call userID req w in
  let topup := mkTopup (call_id call) userID (tw_Amount req) (tw_Method req)
                       "pending" (call_now call) in
  meeting_rooms (snd r) = meeting_rooms w ∧ bookings (snd r) = bookings w
  ∧ vouchers (snd r) = vouchers w ∧ wallets (snd r) = wallets w
  ∧ transactions (snd r) = transactions w
  ∧ match fst r with
    | Ok resp =>
      resp = usecase.topup_response topup
      ∧ (∃ wallet, wallet_of userID w = Some wallet)
      ∧ refuses call InsertTopup = false
      ∧ existsb (λ row, p_ID row =? call_id call) (topups w) = false
      ∧ topups (snd r) = topups w ++ [topup]
    | Err err =>
      topups (snd r) = topups w
      ∧ (wallet_of userID w = None → err = WalletNotFound)
      ∧ (err = WalletNotFound → wallet_of userID w = None)
    end.
Proof.
  unfold usecase.CreateTopup, wallet_of. unfold_more. run_more.
  all: cbn [p_ID] in *; repeat split; try done; eauto.
Qed.

(** What [ConfirmTopup] does on a pending top-up when the store takes
    the status update and the credit. *)
Lemma ConfirmTopup_pending (env : Env) (req : request.ConfirmTopup) (w : World)
    (topup : Topup) :
  topup_with (TopupID req) w = Some topup →
  p_Status topup = "pending" →
  rejects env UpdateTopupStatusSt = false →
  rejects env UpdateWalletCredit = false →
  fst (usecase.ConfirmTopup env req w) = None
  ∧ topups (snd (usecase.ConfirmTopup env req w))
    = repository.Update (λ row, p_ID row =? TopupID req)
        (repository.set_p_Status "completed") (topups w)
  ∧ wallets (snd (usecase.ConfirmTopup env req w))
    = repository.Update (λ row, w_UserID row =? p_UserID topup)
        (λ row, mkWallet (w_UserID row) (w_Balance row + p_Amount topup)%float)
        (wallets w).
Proof.
  unfold usecase.ConfirmTopup, topup_with. unfold_calls. cbn beta iota zeta. proj.
  intros -> Hpending -> ->. rewrite Hpending. simpl String.eqb. cbn [negb]. proj.
  by repeat branch.
Qed.

(** X7 (a top-up from the request to the credit).  [CreateTopup]
    changes no balance.  Confirming the top-up it has returned, the
    store taking the status update and the credit, succeeds, adds the
    requested amount to the balance of the user and completes the
    top-up; every further confirmation fails with [NotPending]. *)
Theorem ConfirmTopup_after_CreateTopup
    (call : Call) (env : Env) (userID : UUID) (req : request.TopupWallet)
    (w w1 : World) (resp : TopupResponse) :
  usecase.CreateTopup call userID req w = (Ok resp, w1) →
  rejects env UpdateTopupStatusSt = false →
  rejects env UpdateWalletCredit = false →
  let r := usecase.ConfirmTopup env (mkConfirmTopup (tr_ID resp)) w1 in
  balance_of userID w1 = balance_of userID w
  ∧ fst r = None
  ∧ (∃ balance,
       balance_of userID w = Some balance
       ∧ balance_of userID (snd r) = Some (balance + tw_Amount req)%float)
  ∧ p_Status <$> topup_with (tr_ID resp) (snd r) = Some "completed"
  ∧ ∀ env',
      fst (usecase.ConfirmTopup env' (mkConfirmTopup (tr_ID resp)) (snd r))
      = Some NotPending.
Proof.
  intros Hcreate Hst Hcredit r.
  pose proof (CreateTopup_run call userID req w) as Hrun.
  rewrite Hcreate in Hrun. cbn [fst snd] in Hrun.
  destruct Hrun as (_ & _ & _ & Hws & _ & -> & [wallet Hwallet] & _ & Hfresh & Hts).
  cbn [tr_ID usecase.topup_response p_ID] in *.
  set (topup := mkTopup (call_id call) userID (tw_Amount req) (tw_Method req)
                        "pending" (call_now call)) in *.
  assert (Hfind : topup_with (call_id call) w1 = Some topup).
  { unfold topup_with. rewrite Hts, find_snoc_fresh by done.
    cbn [topup p_ID]. by rewrite Z.eqb_refl. }
  destruct (ConfirmTopup_pending env (mkConfirmTopup (call_id call)) w1 topup)
    as (Hok & Hts' & Hws'); [done..|].
  fold r in Hok, Hts', Hws'. cbn [TopupID p_UserID p_Amount topup] in Hts', Hws'.
  assert (Hdone : topup_with (call_id call) (snd r)
                  = Some (repository.set_p_Status "completed" topup)).
  { unfold topup_with. rewrite Hts'. by apply find_Update_key. }
  split; [unfold balance_of, wallet_of; by rewrite Hws|].
  split; [exact Hok|]. split; [|split].
  - exists (w_Balance wallet). unfold balance_of. rewrite Hwallet. split; [done|].
    unfold wallet_of. rewrite Hws', Hws.
    by erewrite wallet_of_credit by exact Hwallet.
  - by rewrite Hdone.
  - intros env'.
    by destruct (ConfirmTopup_not_pending env' (mkConfirmTopup (call_id call)) (snd r)
                   _ Hdone).
Qed.

Lemma ConfirmTopup_after_CreateTopup_witness :
  let w1 := snd (usecase.CreateTopup (call_at (9 * day) 9 accept_writes) 1
                   (mkTopupWallet 25 "card") (purse 50)) in
  let r := usecase.ConfirmTopup (env_at (10 * day) 300 accept_all) (mkConfirmTopup 9) w1 in
  fst r = None ∧ balance_of 1 (snd r) = Some 75%float.
Proof.
  intros w1 r.
  destruct (ConfirmTopup_after_CreateTopup (call_at (9 * day) 9 accept_writes)
              (env_at (10 * day) 300 accept_all) 1 (mkTopupWallet 25 "card") (purse 50) w1
              (mkTopupResponse 9 1 25 "card" "pending" (9 * day)))
    as (_ & Hok & (balance & Hb & Hb') & _).
  - vm_compute. reflexivity.
  - reflexivity.
  - reflexivity.
  - split; [exact Hok|]. vm_compute. reflexivity.
Defined.

(** What the listing of the top-ups computes. *)
Lemma GetTopupHistory_run (userID : UUID) (w : World) :
  fst (usecase.GetTopupHistory userID w)
  = Ok (usecase.topup_response
        <$> repository.Order repository.topup_created_at_desc
              (repository.Find (λ row, p_UserID row =? userID) (topups w)))
  ∧ tables (snd (usecase.GetTopupHistory userID w)) = tables w.
Proof.
  unfold usecase.GetTopupHistory, repository.GetTopupsByUser.
  rewrite !mbind_run. unfold logger.Info, gets, modify.
  cbn beta iota zeta. proj_more. rewrite !mbind_run, for_range_pure. done.
Qed.

(** What [GetWallet] computes. *)
Lemma GetWallet_run (userID : UUID) (w : World) :
  fst (usecase.GetWallet userID w)
  = match wallet_of userID w with
    | Some wallet => Ok (mkWalletResponse (w_UserID wallet) (w_Balance wallet))
    | None => Err WalletNotFound
    end
  ∧ tables (snd (usecase.GetWallet userID w)) = tables w.
Proof.
  unfold usecase.GetWallet, wallet_of. unfold_calls. cbn beta iota zeta. proj.
  by destruct (find _ (wallets w)).
Qed.

(** X8 ([CreateTopup]).  The call fails with [WalletNotFound] exactly
    when the user has no wallet, and a failing call writes nothing.  A
    successful call answers with a pending top-up of the user, the
    amount and the method of the request, under an identifier no
    top-up had; this row is appended to the table and
    [GetTopupHistory] lists it.  In no case does the call change a
    wallet or the ledger, or what [GetWallet] answers. *)
Theorem CreateTopup_spec
    (call : Call) (userID : UUID) (req : request.TopupWallet) (w : World) :
  let r := usecase.CreateTopup call userID req w in
  (fst r = Err WalletNotFound ↔ wallet_of userID w = None)
  ∧ (∀ err, fst r = Err err → tables (snd r) = tables w)
  ∧ (∀ resp,
       fst r = Ok resp →
       resp = mkTopupResponse (call_id call) userID (tw_Amount req) (tw_Method req)
                              "pending" (call_now call)
       ∧ topup_with (tr_ID resp) w = None
       ∧ topups (snd r)
         = topups w ++ [mkTopup (call_id call) userID (tw_Amount req) (tw_Method req)
                                "pending" (call_now call)]
       ∧ ∃ resps,
           fst (usecase.GetTopupHistory userID (snd r)) = Ok resps ∧ resp ∈ resps)
  ∧ wallets (snd r) = wallets w
  ∧ transactions (snd r) = transactions w
  ∧ fst (usecase.GetWallet userID (snd r)) = fst (usecase.GetWallet userID w).
Proof.
  intros r. pose proof (CreateTopup_run call userID req w) as Hrun.
  cbv zeta in Hrun. fold r in Hrun.
  destruct Hrun as (Hrooms & Hbs & Hvs & Hws & Htx & Hres).
  split; [|split; [|split; [|split; [done|split; [done|]]]]].
  - destruct (fst r) as [resp|err].
    + destruct Hres as (_ & [wallet Hwallet] & _). split; [done|congruence].
    + destruct Hres as (_ & H1 & H2). split; [intros [= ->]; apply H2; reflexivity|].
      intros Hnone. f_equal. by apply H1.
  - intros err Herr. rewrite Herr in Hres. destruct Hres as (Hts & _).
    unfold tables. by rewrite Hrooms, Hbs, Hvs, Hws, Hts, Htx.
  - intros resp Hresp. rewrite Hresp in Hres.
    destruct Hres as (-> & _ & _ & Hfresh & Hts).
    split; [done|]. split; [|split; [done|]].
    + unfold topup_with. cbn [tr_ID usecase.topup_response p_ID].
      destruct (find _ (topups w)) as [row|] eqn:Hrow; [|done].
      apply find_some in Hrow as [Hin Hkey].
      assert (existsb (λ row, p_ID row =? call_id call) (topups w) = true)
        by (apply existsb_exists; eauto).
      congruence.
    + destruct (GetTopupHistory_run userID (snd r)) as [Hget _].
      eexists. split; [exact Hget|].
      apply list_elem_of_fmap_2. unfold repository.Order.
      rewrite merge_sort_Permutation.
      unfold repository.Find. apply list_elem_of_In, filter_In. split.
      * rewrite Hts. apply in_or_app. right. by left.
      * cbn [p_UserID]. apply Z.eqb_refl.
  - destruct (GetWallet_run userID (snd r)) as [-> _].
    destruct (GetWallet_run userID w) as [-> _].
    unfold wallet_of. by rewrite Hws.
Qed.

Lemma CreateTopup_spec_witness :
  fst (usecase.CreateTopup (call_at (9 * day) 9 accept_writes) 2
         (mkTopupWallet 25 "card") (purse 50)) = Err WalletNotFound
  ∧ fst (usecase.CreateTopup (call_at (9 * day) 9 accept_writes) 1
           (mkTopupWallet 25 "card") (purse 50))
    = Ok (mkTopupResponse 9 1 25 "card" "pending" (9 * day)).
Proof.
  split.
  - apply (CreateTopup_spec (call_at (9 * day) 9 accept_writes) 2
             (mkTopupWallet 25 "card") (purse 50)). reflexivity.
  - destruct (CreateTopup_spec (call_at (9 * day) 9 accept_writes) 1
                (mkTopupWallet 25 "card") (purse 50)) as (_ & _ & H & _).
    destruct (H (mkTopupResponse 9 1 25 "card" "pending" (9 * day))) as [_ _];
      reflexivity.
Defined.

(** X9 (the top-ups of a user).  [GetTopupHistory] answers with the
    top-ups of the user, all of them and no other, the newest first,
    and writes to no table. *)
Theorem GetTopupHistory_lists_user (userID : UUID) (w : World) :
  ∃ rows,
    fst (usecase.GetTopupHistory userID w) = Ok (usecase.topup_response <$> rows)
    ∧ rows ≡ₚ List.filter (λ row, p_UserID row =? userID) (topups w)
    ∧ Sorted (λ a b, p_CreatedAt b <= p_CreatedAt a) rows
    ∧ tables (snd (usecase.GetTopupHistory userID w)) = tables w.
Proof.
  destruct (GetTopupHistory_run userID w) as [Hres Htab].
  eexists. split; [exact Hres|]. split; [|split; [|exact Htab]].
  - apply merge_sort_Permutation.
  - apply (Sorted_merge_sort repository.topup_created_at_desc).
Qed.

(** ** Vouchers *)

Lemma find_existsb {A} (key : A → bool) (table : list A) (row : A) :
  find key table = Some row → existsb key table = true.
Proof. intros H. apply find_some in H as [? ?]. apply existsb_exists. eauto. Qed.

Lemma existsb_find_None {A} (key : A → bool) (table : list A) :
  existsb key table = false → find key table = None.
Proof.
  intros H. destruct (find key table) eqn:Hf; [|done].
  apply find_existsb in Hf. congruence.
Qed.

(** What [CreateVoucher] does, whatever it returns. *)
Lemma CreateVoucher_run (call : Call) (req : request.CreateVoucher) (w : World) :
  let r := usecase.CreateVoucher call req w in
  let voucher := mkVoucher (call_id call) (cv_Code req) (cv_DiscountPercent req)
                           (cv_MaxUses req) 0 (cv_ValidFrom req) (cv_ValidTo req) in
  meeting_rooms (snd r) = meeting_rooms w ∧ bookings (snd r) = bookings w
  ∧ wallets (snd r) = wallets w ∧ topups (snd r) = topups w
  ∧ transactions (snd r) = transactions w
  ∧ match fst r with
    | Ok resp =>
      resp = mkVoucherResponse (call_id call) (cv_Code req) (cv_DiscountPercent req)
               (cv_MaxUses req) 0 (cv_ServiceID req) (cv_ValidFrom req) (cv_ValidTo req)
      ∧ voucher_with (cv_Code req) w = None
      ∧ cv_ValidFrom req <= cv_ValidTo req
      ∧ voucher_by_id (call_id call) w = None
      ∧ vouchers (snd r) = vouchers w ++ [voucher]
    | Err err =>
      vouchers (snd r) = vouchers w
      ∧ ((∃ row, voucher_with (cv_Code req) w = Some row) → err = VoucherCodeExists)
      ∧ (voucher_with (cv_Code req) w = None → cv_ValidTo req < cv_ValidFrom req →
         err = InvalidValidity)
    end.
Proof.
  unfold usecase.CreateVoucher, voucher_with, voucher_by_id, time.Before.
  unfold_more. run_more.
  all: cbn [v_ID] in *; repeat split; try done.
  all: try (intros [? [=]]).
  all: try (by apply existsb_find_None).
  all: try match goal with H : (_ <? _) = false |- _ => apply Z.ltb_ge in H end.
  all: try match goal with H : (_ <? _) = true |- _ => apply Z.ltb_lt in H end.
  all: try lia.
Qed.

(** X10 ([CreateVoucher]).  The call fails with [VoucherCodeExists]
    when a voucher has the code, and with [InvalidValidity] when the
    code is free and the window ends before it starts; a failing call
    writes nothing.  A successful call appends one voucher with the
    fields of the request and no use counted, which both
    [GetVoucherByCode] and [GetVoucherByID] then find. *)
Theorem CreateVoucher_spec (call : Call) (req : request.CreateVoucher) (w : World) :
  let r := usecase.CreateVoucher call req w in
  ((∃ row, voucher_with (cv_Code req) w = Some row) →
   fst r = Err VoucherCodeExists ∧ tables (snd r) = tables w)
  ∧ (voucher_with (cv_Code req) w = None → cv_ValidTo req < cv_ValidFrom req →
     fst r = Err InvalidValidity ∧ tables (snd r) = tables w)
  ∧ (∀ err, fst r = Err err → tables (snd r) = tables w)
  ∧ (∀ resp,
       fst r = Ok resp →
       let voucher := mkVoucher (vr_ID resp) (cv_Code req) (cv_DiscountPercent req)
                                (cv_MaxUses req) 0 (cv_ValidFrom req) (cv_ValidTo req) in
       vouchers (snd r) = vouchers w ++ [voucher]
       ∧ voucher_with (cv_Code req) (snd r) = Some voucher
       ∧ voucher_by_id (vr_ID resp) (snd r) = Some voucher
       ∧ vr_Code resp = cv_Code req ∧ vr_UsedCount resp = 0
       ∧ cv_ValidFrom req <= cv_ValidTo req).
Proof.
  intros r. pose proof (CreateVoucher_run call req w) as Hrun.
  cbv zeta in Hrun. fold r in Hrun.
  destruct Hrun as (Hrooms & Hbs & Hws & Hts & Htx & Hres).
  assert (Herr : ∀ err, fst r = Err err → tables (snd r) = tables w).
  { intros err Herr. rewrite Herr in Hres. destruct Hres as (Hvs & _).
    unfold tables. by rewrite Hrooms, Hbs, Hvs, Hws, Hts, Htx. }
  split; [|split; [|split; [exact Herr|]]].
  - intros Hrow. destruct (fst r) as [resp|err] eqn:Hr.
    + destruct Hres as (_ & Hnone & _). destruct Hrow as [row Hrow]. congruence.
    + destruct Hres as (_ & H1 & _). rewrite (H1 Hrow) in *. split; [done|eauto].
  - intros Hnone Hlt. destruct (fst r) as [resp|err] eqn:Hr.
    + destruct Hres as (_ & _ & Hle & _). lia.
    + destruct Hres as (_ & _ & H2). rewrite (H2 Hnone Hlt) in *. split; [done|eauto].
  - intros resp Hresp. rewrite Hresp in Hres.
    destruct Hres as (-> & Hnone & Hle & Hfresh & Hvs). cbn [vr_ID vr_Code vr_UsedCount].
    cbv zeta. split; [done|]. split; [|split; [|done]].
    + unfold voucher_with in *. rewrite Hvs, find_snoc_fresh by by apply find_None_existsb.
      cbn [v_Code]. by rewrite String.eqb_refl.
    + unfold voucher_by_id in *. rewrite Hvs, find_snoc_fresh by by apply find_None_existsb.
      cbn [v_ID]. by rewrite Z.eqb_refl.
Qed.

Lemma CreateVoucher_spec_witness :
  fst (usecase.CreateVoucher (call_at (9 * day) 5 accept_writes)
         (mkCreateVoucher "TEN" 15 0 1 0 day) (shop 50)) = Err VoucherCodeExists
  ∧ fst (usecase.CreateVoucher (call_at (9 * day) 5 accept_writes)
           (mkCreateVoucher "HALF" 50 1 1 day 0) (shop 50)) = Err InvalidValidity.
Proof.
  split.
  - apply (CreateVoucher_spec (call_at (9 * day) 5 accept_writes)
             (mkCreateVoucher "TEN" 15 0 1 0 day) (shop 50)).
    exists ten. reflexivity.
  - apply (CreateVoucher_spec (call_at (9 * day) 5 accept_writes)
             (mkCreateVoucher "HALF" 50 1 1 day 0) (shop 50)); reflexivity.
Defined.

(** What [UpdateVoucher] does, whatever it returns. *)
Lemma UpdateVoucher_run (call : Call) (req : request.UpdateVoucher) (w : World) :
  let r := usecase.UpdateVoucher call req w in
  meeting_rooms (snd r) = meeting_rooms w ∧ bookings (snd r) = bookings w
  ∧ wallets (snd r) = wallets w ∧ topups (snd r) = topups w
  ∧ transactions (snd r) = transactions w
  ∧ match fst r with
    | None =>
      ∃ old,
        voucher_by_id (uv_ID req) w = Some old
        ∧ (uv_Code req ≠ "" →
           ∀ row, voucher_with (uv_Code req) w = Some row → v_ID row = uv_ID req)
        ∧ v_ValidFrom (usecase.updated old req) <= v_ValidTo (usecase.updated old req)
        ∧ vouchers (snd r)
          = repository.Update (λ row, v_ID row =? uv_ID req)
              (λ _, usecase.updated old req) (vouchers w)
    | Some err =>
      vouchers (snd r) = vouchers w
      ∧ (voucher_by_id (uv_ID req) w = None → err = VoucherNotFound)
    end.
Proof.
  unfold usecase.UpdateVoucher, usecase.UpdateVoucher_save, voucher_with, voucher_by_id,
    time.Before.
  unfold_more. unfold repository.Save. run_more.
  all: repeat split; try done.
  all: try match goal with
           | H : find (λ row, v_ID row =? _) (vouchers _) = Some ?old |- ∃ _, _ =>
             exists old
           end.
  all: try match goal with
           | H : existsb (λ row, v_ID row =? v_ID (usecase.updated ?old _)) _ = false,
             Hf : find (λ row, v_ID row =? _) (vouchers _) = Some ?old |- _ =>
             exfalso; pose proof (find_existsb _ _ _ Hf) as He;
             apply find_some in Hf as [_ Hk]; apply Z.eqb_eq in Hk;
             cbn [usecase.updated v_ID] in H; rewrite Hk in H; congruence
           end.
  all: repeat split; try done.
  all: try match goal with H : (_ <? _) = false |- _ <= _ => by apply Z.ltb_ge in H end.
  all: try match goal with
           | H : negb (String.eqb _ "") = false |- _ ≠ "" → _ =>
             apply negb_false_iff, String.eqb_eq in H; by intros []
           end.
  all: try match goal with
           | H : negb (Z.eqb (v_ID ?v) _) = false |- _ → ∀ _, Some ?v = Some _ → _ =>
             intros _ ? [= <-]; by apply negb_false_iff, Z.eqb_eq in H
           end.
  all: try (intros _ ? [=]).
  all: match goal with
       | Hf : find (λ row, v_ID row =? _) (vouchers _) = Some ?old |- _ =>
         apply find_some in Hf as [_ Hk]; apply Z.eqb_eq in Hk;
         cbn [usecase.updated v_ID]; by rewrite Hk
       end.
Qed.

(** What [DeleteVoucher] does, whatever it returns. *)
Lemma DeleteVoucher_run (call : Call) (voucherID : UUID) (w : World) :
  let r := usecase.DeleteVoucher call voucherID w in
  meeting_rooms (snd r) = meeting_rooms w ∧ bookings (snd r) = bookings w
  ∧ wallets (snd r) = wallets w ∧ topups (snd r) = topups w
  ∧ transactions (snd r) = transactions w
  ∧ match fst r with
    | None =>
      (∃ row, voucher_by_id voucherID w = Some row)
      ∧ vouchers (snd r) = repository.Delete (λ row, v_ID row =? voucherID) (vouchers w)
    | Some err =>
      vouchers (snd r) = vouchers w
      ∧ (voucher_by_id voucherID w = None → err = VoucherNotFound)
    end.
Proof.
  unfold usecase.DeleteVoucher, voucher_by_id. unfold_more. run_more.
  all: repeat split; try done; eauto.
Qed.

(** The voucher table after [CreateBooking], whatever it returns. *)
Lemma CreateBooking_vouchers
    (env : Env) (customerID : UUID) (req : request.CreateBooking) (w : World) :
  vouchers (snd (usecase.CreateBooking env customerID req w)) = vouchers w
  ∨ ∃ voucher,
      voucher_with (VoucherCode req) w = Some voucher
      ∧ (0 <? v_MaxUses voucher) && (v_MaxUses voucher <=? v_UsedCount voucher) = false
      ∧ vouchers (snd (usecase.CreateBooking env customerID req w))
        = repository.Update (λ row, v_ID row =? v_ID voucher) repository.incr_v_UsedCount
            (vouchers w).
Proof.
  unfold usecase.CreateBooking, usecase.CreateBooking_settle, voucher_with.
  unfold_calls. run.
  all: try (by left).
  all: right; eexists; repeat split; done.
Qed.

(** *** Tables without duplicates *)

Lemma NoDup_fmap_eq {A B} (f : A → B) (t : list A) (x y : A) :
  NoDup (f <$> t) → x ∈ t → y ∈ t → f x = f y → x = y.
Proof.
  intros Hnd [i Hi]%list_elem_of_lookup [j Hj]%list_elem_of_lookup Hxy.
  assert (i = j) as ->; [|congruence].
  apply (NoDup_lookup (f <$> t) i j (f x) Hnd); rewrite list_lookup_fmap.
  - by rewrite Hi.
  - rewrite Hj. simpl. by rewrite Hxy.
Qed.

Lemma fmap_Update_eq {A B} (f : A → B) (cond : A → bool) (set : A → A) (t : list A) :
  (∀ x, cond x = true → f (set x) = f x) →
  f <$> repository.Update cond set t = f <$> t.
Proof.
  intros Hset. unfold repository.Update. rewrite <- list_fmap_compose.
  apply list_fmap_ext. intros i x _. simpl.
  destruct (cond x) eqn:Hc; [by apply Hset|done].
Qed.

Lemma NoDup_fmap_Delete {A B} (f : A → B) (cond : A → bool) (t : list A) :
  NoDup (f <$> t) → NoDup (f <$> repository.Delete cond t).
Proof.
  unfold repository.Delete. induction t as [|x t IH]; [done|].
  rewrite fmap_cons, NoDup_cons. intros [Hx Hnd]. cbn [List.filter].
  destruct (negb (cond x)); [|by apply IH].
  rewrite fmap_cons, NoDup_cons. split; [|by apply IH].
  intros (y & Hy & Hin)%list_elem_of_fmap. apply Hx.
  apply list_elem_of_In, filter_In in Hin as [Hin _].
  rewrite Hy. by apply list_elem_of_fmap_2, list_elem_of_In.
Qed.

Lemma find_elem_of {A} (key : A → bool) (t : list A) (x : A) :
  find key t = Some x → x ∈ t ∧ key x = true.
Proof. intros [? ?]%find_some. split; [by apply list_elem_of_In|done]. Qed.

Lemma elem_of_find {A} (key : A → bool) (t : list A) (x : A) :
  x ∈ t → key x = true → ∃ y, find key t = Some y.
Proof.
  intros Hin Hkey. destruct (find key t) as [y|] eqn:Hf; [eauto|].
  apply list_elem_of_In in Hin. by rewrite (find_none _ _ Hf _ Hin) in Hkey.
Qed.

(** The codes after one row is rewritten. *)
Lemma NoDup_codes_Update (t : list Voucher) (old new : Voucher) :
  NoDup (v_ID <$> t) → NoDup (v_Code <$> t) →
  (∀ row, row ∈ t → v_Code row = v_Code new → v_ID row = v_ID old) →
  NoDup (v_Code <$> repository.Update (λ row, v_ID row =? v_ID old) (λ _, new) t).
Proof.
  intros Hids Hcodes Hnew. apply NoDup_alt. intros i j c.
  rewrite !list_lookup_fmap, !lookup_Update.
  destruct (t !! i) as [ri|] eqn:Hi; [|done].
  destruct (t !! j) as [rj|] eqn:Hj; [|done]. simpl.
  pose proof (list_elem_of_lookup_2 _ _ _ Hi) as Hini.
  pose proof (list_elem_of_lookup_2 _ _ _ Hj) as Hinj.
  destruct (Z.eqb_spec (v_ID ri) (v_ID old)) as [Hri|Hri],
           (Z.eqb_spec (v_ID rj) (v_ID old)) as [Hrj|Hrj]; intros [= <-] Hc%(inj Some).
  - apply (NoDup_lookup (v_ID <$> t) i j (v_ID ri) Hids); rewrite list_lookup_fmap.
    + by rewrite Hi.
    + rewrite Hj. simpl. congruence.
  - destruct Hrj. by apply Hnew.
  - destruct Hri. apply Hnew; [done|congruence].
  - apply (NoDup_lookup (v_Code <$> t) i j (v_Code ri) Hcodes); rewrite list_lookup_fmap.
    + by rewrite Hi.
    + rewrite Hj. simpl. congruence.
Qed.

(** X11 (the voucher table stays well formed).  If no identifier and
    no code occurs twice among the vouchers and no window ends before
    it starts, the same holds after [CreateVoucher], [UpdateVoucher],
    [DeleteVoucher] and [CreateBooking], whatever they return. *)
Theorem vouchers_ok_preserved (w : World) :
  vouchers_ok (vouchers w) →
  (∀ call req, vouchers_ok (vouchers (snd (usecase.CreateVoucher call req w))))
  ∧ (∀ call req, vouchers_ok (vouchers (snd (usecase.UpdateVoucher call req w))))
  ∧ (∀ call id, vouchers_ok (vouchers (snd (usecase.DeleteVoucher call id w))))
  ∧ (∀ env customerID req,
       vouchers_ok (vouchers (snd (usecase.CreateBooking env customerID req w)))).
Proof.
  intros (Hids & Hcodes & Hwin). split; [|split; [|split]].
  - intros call req. pose proof (CreateVoucher_run call req w) as Hrun.
    cbv zeta in Hrun. destruct Hrun as (_ & _ & _ & _ & _ & Hres).
    destruct (fst (usecase.CreateVoucher call req w)) as [resp|err].
    + destruct Hres as (_ & Hnone & Hle & Hfresh & ->).
      unfold vouchers_ok. rewrite !fmap_app. cbn [fmap list_fmap v_ID v_Code].
      split; [|split].
      * apply NoDup_app. split; [done|]. split; [|apply NoDup_singleton].
        intros id (row & -> & Hin)%list_elem_of_fmap Hid%list_elem_of_singleton.
        apply list_elem_of_In in Hin. apply (find_none _ _ Hfresh) in Hin.
        by rewrite Hid, Z.eqb_refl in Hin.
      * apply NoDup_app. split; [done|]. split; [|apply NoDup_singleton].
        intros code (row & -> & Hin)%list_elem_of_fmap Hc%list_elem_of_singleton.
        apply list_elem_of_In in Hin. apply (find_none _ _ Hnone) in Hin.
        by rewrite Hc, String.eqb_refl in Hin.
      * apply Forall_app. split; [done|]. by constructor.
    + destruct Hres as (-> & _). done.
  - intros call req. pose proof (UpdateVoucher_run call req w) as Hrun.
    cbv zeta in Hrun. destruct Hrun as (_ & _ & _ & _ & _ & Hres).
    destruct (fst (usecase.UpdateVoucher call req w)) as [err|].
    { destruct Hres as (-> & _). done. }
    destruct Hres as (old & Hold & Hcode & Hle & ->).
    apply find_elem_of in Hold as [Hold Hid]. apply Z.eqb_eq in Hid.
    assert (Hnew : v_ID (usecase.updated old req) = v_ID old) by done.
    unfold vouchers_ok. split; [|split].
    + rewrite fmap_Update_eq; [done|].
      intros row Hrow%Z.eqb_eq. congruence.
    + rewrite <- Hid. apply NoDup_codes_Update; [done..|].
      intros row Hin. cbn [usecase.updated v_Code].
      destruct (String.eqb_spec (uv_Code req) "") as [He|He]; cbn [negb]; intros Hc.
      * f_equal. by apply (NoDup_fmap_eq v_Code (vouchers w)).
      * destruct (elem_of_find (λ row, (v_Code row =? uv_Code req)%string)
                    (vouchers w) row Hin) as [row' Hrow']; [by apply String.eqb_eq|].
        pose proof (Hcode He row' Hrow') as Hid'.
        apply find_elem_of in Hrow' as [Hin' Hc']. apply String.eqb_eq in Hc'.
        assert (row' = row) as <-; [|congruence].
        apply (NoDup_fmap_eq v_Code (vouchers w)); [done..|congruence].
    + unfold repository.Update. apply Forall_fmap, Forall_forall.
      intros row Hin. simpl. destruct (v_ID row =? uv_ID req); [done|].
      by apply (proj1 (Forall_forall _ _) Hwin).
  - intros call id. pose proof (DeleteVoucher_run call id w) as Hrun.
    cbv zeta in Hrun. destruct Hrun as (_ & _ & _ & _ & _ & Hres).
    destruct (fst (usecase.DeleteVoucher call id w)) as [err|].
    { destruct Hres as (-> & _). done. }
    destruct Hres as (_ & ->). unfold vouchers_ok.
    split; [by apply NoDup_fmap_Delete|]. split; [by apply NoDup_fmap_Delete|].
    unfold repository.Delete. apply Forall_forall. intros row Hin.
    apply list_elem_of_In, filter_In in Hin as [Hin _].
    by apply (proj1 (Forall_forall _ _) Hwin), list_elem_of_In.
  - intros env customerID req.
    destruct (CreateBooking_vouchers env customerID req w) as [->|(voucher & _ & _ & ->)];
      [done|].
    unfold vouchers_ok. rewrite !fmap_Update_eq by done. split; [done|]. split; [done|].
    unfold repository.Update. apply Forall_fmap, Forall_forall.
    intros row Hin. simpl. pose proof (proj1 (Forall_forall _ _) Hwin row Hin).
    by destruct (v_ID row =? v_ID voucher).
Qed.

Lemma vouchers_ok_preserved_witness :
  vouchers_ok (vouchers (shop 50))
  ∧ vouchers_ok
      (vouchers (snd (usecase.UpdateVoucher (call_at (9 * day) 5 accept_writes)
                        (mkUpdateVoucher 3 "NINE" 9 5 None None) (shop 50))))
  ∧ voucher_with "NINE"
      (snd (usecase.UpdateVoucher (call_at (9 * day) 5 accept_writes)
              (mkUpdateVoucher 3 "NINE" 9 5 None None) (shop 50)))
    = Some (mkVoucher 3 "NINE" 9 5 0 0 (100 * day)).
Proof.
  assert (Hok : vouchers_ok (vouchers (shop 50))).
  { unfold vouchers_ok. cbn [shop vouchers fmap list_fmap v_ID v_Code].
    split; [|split].
    - apply (bool_decide_unpack _). vm_compute. reflexivity.
    - apply (bool_decide_unpack _). vm_compute. reflexivity.
    - repeat constructor; vm_compute; discriminate. }
  split; [exact Hok|]. split; [|vm_compute; reflexivity].
  apply (vouchers_ok_preserved (shop 50) Hok).
Defined.

(** *** Updating, deleting and listing vouchers *)

Lemma find_Update_const {A} (key : A → bool) (new old : A) (t : list A) :
  key new = true → find key t = Some old →
  find key (repository.Update key (λ _, new) t) = Some new.
Proof.
  intros Hnew. unfold repository.Update.
  induction t as [|x t IH]; [done|]. rewrite fmap_cons. cbn [find].
  destruct (key x) eqn:Hx; [by rewrite Hnew|]. by rewrite Hx.
Qed.

(** X12 ([UpdateVoucher]).  The call fails with [VoucherNotFound]
    when no voucher has the identifier, and a failing call writes
    nothing.  After a successful call [GetVoucherByID] finds the
    voucher with its identifier and its count of uses as before; the
    code is that of the request unless it is empty, the discount that
    of the request if it is positive, the limit that of the request
    whenever it is not negative (so a request that leaves it at zero
    lifts the limit), and each end of the window that of the request
    where it gives one; the window does not end before it starts. *)
Theorem UpdateVoucher_spec (call : Call) (req : request.UpdateVoucher) (w : World) :
  let r := usecase.UpdateVoucher call req w in
  (voucher_by_id (uv_ID req) w = None →
   fst r = Some VoucherNotFound ∧ tables (snd r) = tables w)
  ∧ (∀ err, fst r = Some err → tables (snd r) = tables w)
  ∧ (fst r = None →
     ∃ old new,
       voucher_by_id (uv_ID req) w = Some old
       ∧ voucher_by_id (uv_ID req) (snd r) = Some new
       ∧ v_ID new = v_ID old
       ∧ v_UsedCount new = v_UsedCount old
       ∧ v_Code new = (if String.eqb (uv_Code req) "" then v_Code old else uv_Code req)
       ∧ v_DiscountPercent new
         = (if 0 <? uv_DiscountPercent req then uv_DiscountPercent req
            else v_DiscountPercent old)
       ∧ v_MaxUses new = (if 0 <=? uv_MaxUses req then uv_MaxUses req else v_MaxUses old)
       ∧ v_ValidFrom new = default (v_ValidFrom old) (uv_ValidFrom req)
       ∧ v_ValidTo new = default (v_ValidTo old) (uv_ValidTo req)
       ∧ v_ValidFrom new <= v_ValidTo new).
Proof.
  intros r. pose proof (UpdateVoucher_run call req w) as Hrun.
  cbv zeta in Hrun. fold r in Hrun.
  destruct Hrun as (Hrooms & Hbs & Hws & Hts & Htx & Hres).
  assert (Herr : ∀ err, fst r = Some err → tables (snd r) = tables w).
  { intros err Herr. rewrite Herr in Hres. destruct Hres as (Hvs & _).
    unfold tables. by rewrite Hrooms, Hbs, Hvs, Hws, Hts, Htx. }
  split; [|split; [exact Herr|]].
  - intros Hnone. destruct (fst r) as [err|] eqn:Hr.
    + destruct Hres as (_ & H1). rewrite (H1 Hnone) in *. split; [done|eauto].
    + destruct Hres as (old & Hold & _). congruence.
  - intros Hok. rewrite Hok in Hres. destruct Hres as (old & Hold & _ & Hle & Hvs).
    exists old, (usecase.updated old req). split; [done|]. split.
    { unfold voucher_by_id in *. rewrite Hvs.
      apply (find_Update_const _ _ old); [|done].
      apply find_some in Hold as [_ Hkey]. exact Hkey. }
    repeat split; try done.
    cbn [usecase.updated v_Code]. by destruct (String.eqb (uv_Code req) "").
Qed.

Lemma UpdateVoucher_spec_witness :
  fst (usecase.UpdateVoucher (call_at (9 * day) 5 accept_writes)
         (mkUpdateVoucher 8 "NINE" 9 5 None None) (shop 50)) = Some VoucherNotFound.
Proof.
  apply (UpdateVoucher_spec (call_at (9 * day) 5 accept_writes)
           (mkUpdateVoucher 8 "NINE" 9 5 None None) (shop 50)).
  reflexivity.
Defined.

(** X13 ([DeleteVoucher]).  The call fails with [VoucherNotFound]
    when no voucher has the identifier, and a failing call writes
    nothing.  After a successful call the vouchers are those of
    before with another identifier, the bookings made with the voucher
    are untouched, and deleting or updating the voucher again fails
    with [VoucherNotFound]. *)
Theorem DeleteVoucher_spec (call : Call) (voucherID : UUID) (w : World) :
  let r := usecase.DeleteVoucher call voucherID w in
  (voucher_by_id voucherID w = None →
   fst r = Some VoucherNotFound ∧ tables (snd r) = tables w)
  ∧ (∀ err, fst r = Some err → tables (snd r) = tables w)
  ∧ (fst r = None →
     voucher_by_id voucherID (snd r) = None
     ∧ (∀ row, row ∈ vouchers (snd r) ↔ row ∈ vouchers w ∧ v_ID row ≠ voucherID)
     ∧ bookings (snd r) = bookings w
     ∧ (∀ call', fst (usecase.DeleteVoucher call' voucherID (snd r))
                 = Some VoucherNotFound)
     ∧ (∀ call' req, uv_ID req = voucherID →
                     fst (usecase.UpdateVoucher call' req (snd r))
                     = Some VoucherNotFound)).
Proof.
  intros r. pose proof (DeleteVoucher_run call voucherID w) as Hrun.
  cbv zeta in Hrun. fold r in Hrun.
  destruct Hrun as (Hrooms & Hbs & Hws & Hts & Htx & Hres).
  assert (Herr : ∀ err, fst r = Some err → tables (snd r) = tables w).
  { intros err Herr. rewrite Herr in Hres. destruct Hres as (Hvs & _).
    unfold tables. by rewrite Hrooms, Hbs, Hvs, Hws, Hts, Htx. }
  split; [|split; [exact Herr|]].
  - intros Hnone. destruct (fst r) as [err|] eqn:Hr.
    + destruct Hres as (_ & H1). rewrite (H1 Hnone) in *. split; [done|eauto].
    + destruct Hres as ([row Hrow] & _). congruence.
  - intros Hok. rewrite Hok in Hres. destruct Hres as (_ & Hvs).
    assert (Hin : ∀ row, row ∈ vouchers (snd r) ↔ row ∈ vouchers w ∧ v_ID row ≠ voucherID).
    { intros row. rewrite Hvs. unfold repository.Delete.
      rewrite !list_elem_of_In, filter_In, negb_true_iff, Z.eqb_neq. done. }
    assert (Hgone : voucher_by_id voucherID (snd r) = None).
    { unfold voucher_by_id. apply existsb_find_None, not_true_is_false.
      intros (row & Hrow & Hkey)%existsb_exists.
      apply list_elem_of_In, Hin in Hrow as [_ Hne]. by apply Z.eqb_eq in Hkey. }
    split; [done|]. split; [done|]. split; [done|]. split.
    + intros call'. pose proof (DeleteVoucher_run call' voucherID (snd r)) as Hrun.
      cbv zeta in Hrun. destruct Hrun as (_ & _ & _ & _ & _ & Hres).
      destruct (fst (usecase.DeleteVoucher call' voucherID (snd r))) as [err|].
      * destruct Hres as (_ & H1). by rewrite (H1 Hgone).
      * destruct Hres as ([row Hrow] & _). congruence.
    + intros call' req <-. pose proof (UpdateVoucher_run call' req (snd r)) as Hrun.
      cbv zeta in Hrun. destruct Hrun as (_ & _ & _ & _ & _ & Hres).
      destruct (fst (usecase.UpdateVoucher call' req (snd r))) as [err|].
      * destruct Hres as (_ & H1). by rewrite (H1 Hgone).
      * destruct Hres as (old & Hold & _). congruence.
Qed.

Lemma DeleteVoucher_spec_witness :
  fst (usecase.DeleteVoucher (call_at (9 * day) 5 accept_writes) 8 (shop 50))
  = Some VoucherNotFound.
Proof.
  apply (DeleteVoucher_spec (call_at (9 * day) 5 accept_writes) 8 (shop 50)).
  reflexivity.
Defined.

(** X14 (listed means applicable).  For a voucher that its code
    finds and whose limit is not negative, at one and the same
    instant: [GetValidVouchers] lists the voucher exactly when
    [ApplyVoucher] accepts its code. *)
Theorem GetValidVouchers_agrees_with_ApplyVoucher
    (call : Call) (env : Env) (amount : float) (w : World) (row : Voucher) :
  voucher_with (v_Code row) w = Some row →
  0 <= v_MaxUses row →
  now_voucher env = call_now call →
  ∃ rows,
    fst (repository.GetValidVouchers call w) = Ok rows
    ∧ (row ∈ rows
       ↔ ∃ calc,
           fst (usecase.ApplyVoucher env (mkApplyVoucher (v_Code row) amount) w) = Ok calc).
Proof.
  intros Hrow Hmax Hnow. apply find_elem_of in Hrow as Hin. destruct Hin as [Hin _].
  unfold repository.GetValidVouchers, logger.Info, gets, modify.
  rewrite mbind_run. cbn [fst snd]. proj_more.
  eexists. split; [reflexivity|].
  unfold repository.Find. rewrite list_elem_of_In, filter_In, <- list_elem_of_In.
  unfold usecase.ApplyVoucher. unfold_calls. cbn beta iota zeta. proj.
  cbn [av_VoucherCode av_Amount]. unfold voucher_with in Hrow. rewrite Hrow.
  unfold repository.valid_at, time.Before, time.After. rewrite Hnow.
  destruct (Z.ltb_spec (call_now call) (v_ValidFrom row)),
           (Z.ltb_spec (v_ValidTo row) (call_now call)),
           (Z.ltb_spec 0 (v_MaxUses row)),
           (Z.leb_spec (v_MaxUses row) (v_UsedCount row));
    cbn [orb andb fst].
  all: rewrite ?andb_true_iff, ?orb_true_iff, ?Z.leb_le, ?Z.ltb_lt, ?Z.eqb_eq.
  all: split; [intros [_ H']|intros [calc H']]; try discriminate; try lia; eauto.
  all: split; [done|lia].
Qed.

Lemma GetValidVouchers_agrees_with_ApplyVoucher_witness :
  ∃ rows,
    fst (repository.GetValidVouchers (call_at (10 * day) 5 accept_writes) (shop 50))
    = Ok rows
    ∧ (ten ∈ rows
       ↔ ∃ calc,
           fst (usecase.ApplyVoucher (env_at (10 * day) 100 accept_all)
                  (mkApplyVoucher "TEN" 100) (shop 50)) = Ok calc).
Proof.
  apply (GetValidVouchers_agrees_with_ApplyVoucher (call_at (10 * day) 5 accept_writes)
           (env_at (10 * day) 100 accept_all) 100 (shop 50) ten); [reflexivity| |reflexivity].
  vm_compute. discriminate.
Defined.

(** X15 (the limit of uses).  Identifiers being unique among the
    vouchers: if no limited voucher has been used more often than its
    limit, this is so after [CreateBooking] too, whatever it
    returns. *)
Theorem CreateBooking_keeps_usage_bound
    (env : Env) (customerID : UUID) (req : request.CreateBooking) (w : World) :
  NoDup (v_ID <$> vouchers w) →
  Forall within_limit (vouchers w) →
  Forall within_limit (vouchers (snd (usecase.CreateBooking env customerID req w))).
Proof.
  intros Hids Hlim.
  destruct (CreateBooking_vouchers env customerID req w)
    as [->|(voucher & Hfound & Hleft & ->)]; [done|].
  apply find_elem_of in Hfound as [Hin _].
  unfold repository.Update. apply Forall_fmap, Forall_forall. intros row Hrow. simpl.
  pose proof (proj1 (Forall_forall _ _) Hlim row Hrow) as Hb.
  destruct (Z.eqb_spec (v_ID row) (v_ID voucher)) as [Hid|Hid]; [|done].
  assert (row = voucher) as -> by (by apply (NoDup_fmap_eq v_ID (vouchers w))).
  unfold within_limit in *. cbn [repository.incr_v_UsedCount v_MaxUses v_UsedCount].
  intros Hpos. apply andb_false_iff in Hleft as [Hl|Hl].
  - apply Z.ltb_ge in Hl. lia.
  - apply Z.leb_gt in Hl. lia.
Qed.

Lemma CreateBooking_keeps_usage_bound_witness :
  let w1 := snd (usecase.CreateBooking (env_at (10 * day) 100 accept_all) 1
                   (nine_to_eleven "ONCE") outlet) in
  let r2 := usecase.CreateBooking (env_at (10 * day) 200 accept_all) 1
              (mkCreateBooking 7 (11 * day + 11 * time.Hour) (11 * day + 13 * time.Hour)
                 "ONCE") w1 in
  vouchers outlet = [mkVoucher 5 "ONCE" 50 1 0 0 (100 * day)]
  ∧ vouchers w1 = [mkVoucher 5 "ONCE" 50 1 1 0 (100 * day)]
  ∧ Forall within_limit (vouchers w1)
  ∧ fst r2 = Err VoucherExhausted
  ∧ vouchers (snd r2) = [mkVoucher 5 "ONCE" 50 1 1 0 (100 * day)]
  ∧ Forall within_limit (vouchers (snd r2)).
Proof.
  intros w1 r2.
  assert (Hw1 : Forall within_limit (vouchers w1)).
  { apply (CreateBooking_keeps_usage_bound (env_at (10 * day) 100 accept_all) 1
             (nine_to_eleven "ONCE") outlet).
    - apply (bool_decide_unpack _). vm_compute. reflexivity.
    - repeat constructor; unfold within_limit; simpl; lia. }
  split; [reflexivity|]. split; [vm_compute; reflexivity|]. split; [exact Hw1|].
  split; [vm_compute; reflexivity|]. split; [vm_compute; reflexivity|].
  apply (CreateBooking_keeps_usage_bound (env_at (10 * day) 200 accept_all) 1
           (mkCreateBooking 7 (11 * day + 11 * time.Hour) (11 * day + 13 * time.Hour)
              "ONCE") w1).
  - apply (bool_decide_unpack _). vm_compute. reflexivity.
  - exact Hw1.
Defined.

(** ** The ledger of a booking *)

(** X16 (the ledger of a booking).  When a booking is made and then
    cancelled and the ledger takes both inserts, the ledger has grown
    by the charge of the price and the refund of its negation, in this
    order; [GetTransactionsByService] for service 1 and the booking
    lists both, newest first, among rows of that service and booking
    only, and [GetTransactionsByUser] lists both among rows of the
    customer only. *)
Theorem booking_history
    (env env' : Env) (customerID : UUID) (req : request.CreateBooking)
    (w w1 w2 : World) (resp : BookingResponse) :
  usecase.CreateBooking env customerID req w = (Ok resp, w1) →
  usecase.CancelBooking env' customerID (br_ID resp) w1 = (None, w2) →
  ledger_accepts env w →
  ledger_accepts env' w1 →
  let charge := mkTransaction (new_transaction_id env) customerID 1 (br_ID resp)
                              (br_TotalPrice resp) (now_paid env) "completed" in
  let refund := mkTransaction (new_transaction_id env') customerID 1 (br_ID resp)
                              (- br_TotalPrice resp)%float (now_paid env') "refunded" in
  transactions w2 = transactions w ++ [charge; refund]
  ∧ (∃ rows,
       fst (repository.GetTransactionsByService 1 (br_ID resp) w2) = Ok rows
       ∧ charge ∈ rows ∧ refund ∈ rows
       ∧ Sorted (λ a b, t_PaidAt b <= t_PaidAt a) rows
       ∧ Forall (λ row, t_ServiceID row = 1 ∧ t_ServiceRefID row = br_ID resp) rows)
  ∧ (∃ rows,
       fst (repository.GetTransactionsByUser customerID w2) = Ok rows
       ∧ charge ∈ rows ∧ refund ∈ rows
       ∧ Sorted (λ a b, t_PaidAt b <= t_PaidAt a) rows
       ∧ Forall (λ row, t_UserID row = customerID) rows).
Proof.
  intros Hbook Hcancel [Hacc Hfresh] [Hacc' Hfresh'] charge refund.
  destruct (CreateBooking_Ok _ _ _ _ _ _ Hbook)
    as (room & wallet & booking & _ & _ & _ & _ & _ & _ & Hb & Hresp & Hnew
        & Hbs & _ & _ & _ & Htx).
  assert (Hid : b_ID booking = new_booking_id env) by (by rewrite Hb).
  assert (Hrid : br_ID resp = b_ID booking) by (by rewrite Hresp).
  assert (Hprice : br_TotalPrice resp = b_TotalPrice booking) by (by rewrite Hresp).
  destruct (CancelBooking_None _ _ _ _ _ Hcancel)
    as (booking' & Hfind & _ & _ & _ & _ & _ & _ & _ & Htx').
  assert (booking' = booking) as ->.
  { unfold booking_with in Hfind.
    rewrite Hbs, Hrid, Hid, find_snoc_fresh in Hfind by done.
    rewrite Hid, Z.eqb_refl in Hfind. congruence. }
  rewrite Hacc, Hfresh in Htx. rewrite Hacc', Hfresh' in Htx'. cbn [negb andb] in Htx, Htx'.
  assert (Hall : transactions w2 = transactions w ++ [charge; refund]).
  { rewrite Htx', Htx, <- app_assoc. unfold charge, refund.
    by rewrite Hrid, Hprice. }
  split; [exact Hall|]. split.
  - unfold repository.GetTransactionsByService, logger.Info, gets, modify.
    rewrite mbind_run. cbn [fst snd]. proj_more.
    eexists. split; [reflexivity|]. unfold repository.Order, repository.Find.
    split; [|split; [|split]].
    + rewrite merge_sort_Permutation, list_elem_of_In, filter_In, Hall.
      split; [apply in_or_app; right; by left|].
      unfold charge. cbn [t_ServiceID t_ServiceRefID]. by rewrite !Z.eqb_refl.
    + rewrite merge_sort_Permutation, list_elem_of_In, filter_In, Hall.
      split; [apply in_or_app; right; right; by left|].
      unfold refund. cbn [t_ServiceID t_ServiceRefID]. by rewrite !Z.eqb_refl.
    + apply (Sorted_merge_sort repository.paid_at_desc).
    + apply Forall_forall. intros row.
      rewrite merge_sort_Permutation, list_elem_of_In, filter_In, andb_true_iff,
        !Z.eqb_eq. tauto.
  - unfold repository.GetTransactionsByUser, logger.Info, gets, modify.
    rewrite mbind_run. cbn [fst snd]. proj_more.
    eexists. split; [reflexivity|]. unfold repository.Order, repository.Find.
    split; [|split; [|split]].
    + rewrite merge_sort_Permutation, list_elem_of_In, filter_In, Hall.
      split; [apply in_or_app; right; by left|].
      unfold charge. cbn [t_UserID]. by rewrite Z.eqb_refl.
    + rewrite merge_sort_Permutation, list_elem_of_In, filter_In, Hall.
      split; [apply in_or_app; right; right; by left|].
      unfold refund. cbn [t_UserID]. by rewrite Z.eqb_refl.
    + apply (Sorted_merge_sort repository.paid_at_desc).
    + apply Forall_forall. intros row.
      rewrite merge_sort_Permutation, list_elem_of_In, filter_In, Z.eqb_eq. tauto.
Qed.

Lemma booking_history_witness :
  transactions
    (snd (usecase.CancelBooking (env_at (10 * day + time.Hour) 300 accept_all) 1 100 booked))
  = [mkTransaction 101 1 1 100 18 (10 * day) "completed";
     mkTransaction 301 1 1 100 (-18) (10 * day + time.Hour) "refunded"].
Proof.
  destruct (booking_history
              (env_at (10 * day) 100 accept_all)
              (env_at (10 * day + time.Hour) 300 accept_all) 1
              (nine_to_eleven "TEN") (shop 50) booked
              (snd (usecase.CancelBooking (env_at (10 * day + time.Hour) 300 accept_all)
                      1 100 booked))
              booked_response) as [Hall _].
  - vm_compute. reflexivity.
  - vm_compute. reflexivity.
  - split; reflexivity.
  - split; reflexivity.
  - exact Hall.
Defined.

(** ** What no call does *)

(** X17 (one refund).  Once [CancelBooking] has succeeded, every
    further call of the customer on that booking fails with
    [AlreadyCancelled] and writes nothing: no booking is refunded
    twice. *)
Theorem CancelBooking_refunds_once
    (env env' : Env) (customerID bookingID : UUID) (w w1 : World) :
  usecase.CancelBooking env customerID bookingID w = (None, w1) →
  fst (usecase.CancelBooking env' customerID bookingID w1) = Some AlreadyCancelled
  ∧ tables (snd (usecase.CancelBooking env' customerID bookingID w1)) = tables w1.
Proof.
  intros Hcancel.
  destruct (CancelBooking_None _ _ _ _ _ Hcancel)
    as (booking & Hfind & Hown & _ & Hbs & _).
  assert (Hfind' : find (λ row, b_ID row =? bookingID) (bookings w1)
                   = Some (repository.set_b_Status "cancelled" booking)).
  { rewrite Hbs. by apply find_Update_key. }
  unfold usecase.CancelBooking. unfold_calls. cbn beta iota zeta. proj.
  rewrite Hfind'. cbn [repository.set_b_Status b_CustomerID b_Status].
  rewrite Hown, Z.eqb_refl. done.
Qed.

Lemma CancelBooking_refunds_once_witness :
  fst (usecase.CancelBooking (env_at (10 * day + time.Hour) 400 accept_all) 1 100
         (snd (usecase.CancelBooking (env_at (10 * day) 300 accept_all) 1 100 booked)))
  = Some AlreadyCancelled.
Proof.
  apply (CancelBooking_refunds_once (env_at (10 * day) 300 accept_all)
           (env_at (10 * day + time.Hour) 400 accept_all) 1 100 booked).
  vm_compute. reflexivity.
Defined.

(** X18 (no wallet appears or disappears).  [CreateBooking],
    [CancelBooking] and [ConfirmTopup] leave the users of the wallet
    table as they are, row by row, whatever they return; [CreateTopup]
    leaves the whole table as it is. *)
Theorem wallets_are_kept (w : World) :
  (∀ env customerID req,
     w_UserID <$> wallets (snd (usecase.CreateBooking env customerID req w))
     = w_UserID <$> wallets w)
  ∧ (∀ env customerID bookingID,
       w_UserID <$> wallets (snd (usecase.CancelBooking env customerID bookingID w))
       = w_UserID <$> wallets w)
  ∧ (∀ env req,
       w_UserID <$> wallets (snd (usecase.ConfirmTopup env req w))
       = w_UserID <$> wallets w)
  ∧ (∀ call userID req,
       wallets (snd (usecase.CreateTopup call userID req w)) = wallets w).
Proof.
  split; [|split; [|split]].
  - intros env customerID req.
    destruct (CreateBooking_wallets env customerID req w) as (cond & set & Hset & ->).
    by apply fmap_Update_eq.
  - intros env customerID bookingID.
    destruct (CancelBooking_wallets env customerID bookingID w) as (cond & set & Hset & ->).
    by apply fmap_Update_eq.
  - intros env req.
    destruct (ConfirmTopup_wallets env req w) as (cond & set & Hset & ->).
    by apply fmap_Update_eq.
  - intros call userID req. apply (CreateTopup_run call userID req w).
Qed.
